(** * RLlib glue code: [BatchIndividualItems] and [DQNRainbowRLModule]

    A shallow embedding of

    - [rllib/connectors/common/batch_individual_items.py]
      (the connector piece [BatchIndividualItems.__call__]), and
    - [rllib/algorithms/dqn/dqn_rainbow_rl_module.py]
      (the module [DQNRainbowRLModule]: [setup] and the spec getters),

    followed by the properties of both that the specification states.

    Python dictionaries keep insertion order and the connector depends on
    it, so a dictionary is an association list with unique keys. The
    model-config dictionary and the attributes of the RL module are only
    ever read and written by name and are [gmap]s; the networks the module
    builds are objects in a store, referred to by index. Exceptions are a
    result type. *)

From stdpp Require Import base strings list gmap.
From Stdlib Require Import ZArith.

Local Open Scope string_scope.
Local Open Scope Z_scope.
Local Open Scope list_scope.

(* ===================================================================== *)
(** * Python values *)
(* ===================================================================== *)

(** Dictionary keys: column names and module ids are strings, the keys of a
    per-episode mapping are tuples of ids such as [(eps_id,)]. *)
Inductive key : Type :=
| KStr (s : string)
| KTuple (t : list string).

#[global] Instance key_eq_dec : EqDecision key.
Proof. solve_decision. Defined.

(** The values that travel through the connector. [VArray] stands for a
    tensor or array with a leading dimension (what batching produces);
    [VDict] is an insertion-ordered dictionary. *)
#[warnings="-register-all"]
Inductive value : Type :=
| VNone
| VBool (b : bool)
| VInt (z : Z)
| VStr (s : string)
| VTuple (items : list value)
| VArray (items : list value)
| VList (items : list value)
| VDict (entries : list (key * value)).

Abbreviation dict := (list (key * value)).

(** Python exceptions raised on the modelled paths. *)
Inductive exn : Type :=
| IndexError
| AssertionError
| AttributeError
| KeyError
| TypeError
| ValueError
| NotImplementedError.

Inductive result (A : Type) : Type :=
| Ok (a : A)
| Raise (e : exn).
Arguments Ok {A} a.
Arguments Raise {A} e.

#[global] Instance result_ret : MRet result := fun _ a => Ok a.
#[global] Instance result_bind : MBind result := fun _ _ f r =>
  match r with
  | Ok a => f a
  | Raise e => Raise e
  end.

(** [for x in xs: st = body(st, x)], stopping at the first exception. *)
Fixpoint for_each {A S : Type} (body : S -> A -> result S) (xs : list A) (st : S)
  : result S :=
  match xs with
  | [] => Ok st
  | x :: xs' => st' ← body st x; for_each body xs' st'
  end.

(* ===================================================================== *)
(** * Insertion-ordered dictionaries *)
(* ===================================================================== *)

(** [d.get(k)] *)
Fixpoint dict_get (k : key) (d : dict) : option value :=
  match d with
  | [] => None
  | (k', v) :: d' => if decide (k = k') then Some v else dict_get k d'
  end.

(** [k in d] *)
Definition dict_in (k : key) (d : dict) : bool :=
  match dict_get k d with Some _ => true | None => false end.

(** [d[k] = v]: an existing key keeps its position, a new key goes last. *)
Fixpoint dict_set (k : key) (v : value) (d : dict) : dict :=
  match d with
  | [] => [(k, v)]
  | (k', v') :: d' =>
      if decide (k = k') then (k, v) :: d' else (k', v') :: dict_set k v d'
  end.

(** The dictionary left by [d.pop(k)]. *)
Fixpoint dict_pop (k : key) (d : dict) : dict :=
  match d with
  | [] => []
  | (k', v') :: d' =>
      if decide (k = k') then d' else (k', v') :: dict_pop k d'
  end.

(** [d.keys()] *)
Definition dict_keys (d : dict) : list key := d.*1.

(** [d[k]], raising [KeyError] on a missing key. *)
Definition getitem (d : dict) (k : key) : result value :=
  match dict_get k d with
  | Some v => Ok v
  | None => Raise KeyError
  end.

(** A well-formed dictionary has no key twice. *)
Definition dict_wf (d : dict) : Prop := NoDup (dict_keys d).

(** The key of a dictionary seen as a value (when a dictionary is iterated). *)
Definition key_value (k : key) : value :=
  match k with
  | KStr s => VStr s
  | KTuple t => VTuple (VStr <$> t)
  end.

(** A byte that continues a character of a UTF-8 string ([10xxxxxx]). *)
Definition is_continuation (c : Ascii.ascii) : bool :=
  match c with
  | Ascii.Ascii _ _ _ _ _ _ b6 b7 => b7 && negb b6
  end.

(** The one-character strings a string iterates over. A string is kept as
    its UTF-8 bytes: a character is a byte together with the continuation
    bytes that follow it. *)
Fixpoint chars (s : string) : list string :=
  match s with
  | EmptyString => []
  | String c s' =>
      let rest := chars s' in
      match s' with
      | String c' _ =>
          if is_continuation c' then
            match rest with
            | next :: rest' => String c next :: rest'
            | [] => [String c EmptyString]
            end
          else String c EmptyString :: rest
      | EmptyString => [String c EmptyString]
      end
  end.

(** [for item in v]: the items a value iterates over. *)
Definition py_iter (v : value) : result (list value) :=
  match v with
  | VList l | VTuple l | VArray l => Ok l
  | VDict d => Ok (key_value <$> dict_keys d)
  | VStr s => Ok (VStr <$> chars s)
  | VNone | VBool _ | VInt _ => Raise TypeError
  end.

(** [(eps_id,) = k]: unpacking a key into exactly one name. *)
Definition unpack1 (k : key) : result string :=
  match k with
  | KTuple [e] => Ok e
  | KTuple _ => Raise ValueError
  | KStr s =>
      match chars s with
      | [c] => Ok c
      | _ => Raise ValueError
      end
  end.

(** [isinstance(v, list)] *)
Definition is_list (v : value) : bool :=
  match v with VList _ => true | _ => false end.

(* ===================================================================== *)
(** * The connector piece [BatchIndividualItems] *)
(* ===================================================================== *)

(** Modelled from the spec: the column names of
    [ray.rllib.policy.sample_batch.SampleBatch], a file that is not among
    the sources. The specification calls the two columns the connector
    singles out "obs" and "infos". *)
Module SampleBatch.
Definition OBS : string := "obs".
Definition INFOS : string := "infos".
End SampleBatch.

(** Modelled from the spec: an episode is a single-agent or a multi-agent
    episode ([ray.rllib.utils.typing.EpisodeType]); the connector only asks
    which of the two the first episode is. *)
Inductive episode : Type :=
| SingleAgentEpisode
| MultiAgentEpisode.

Definition is_MultiAgentEpisode (e : episode) : bool :=
  match e with MultiAgentEpisode => true | SingleAgentEpisode => false end.

(** Modelled from the spec: an RL module is either a plain [RLModule] or a
    [MultiAgentRLModule], which holds sub-modules under module ids;
    [column in rl_module] asks whether [column] is one of these ids. *)
Inductive rl_module : Type :=
| RLModule
| MultiAgentRLModule (module_ids : list string).

Definition is_MultiAgentRLModule (m : rl_module) : bool :=
  match m with MultiAgentRLModule _ => true | RLModule => false end.

Definition module_contains (m : rl_module) (column : key) : bool :=
  match m, column with
  | MultiAgentRLModule ids, KStr s => bool_decide (s ∈ ids)
  | _, _ => false
  end.

(** The state the call works on: the [data] dictionary, mutated in place and
    returned, and [shared_data], which is a dictionary or [None]. *)
Definition state : Type := dict * option dict.

Section BatchIndividualItems.

(** [ray.rllib.utils.spaces.space_utils.batch] is not among the sources: it
    is a parameter, and it may raise. *)
Variable batch : list value -> result value.

(** [ray.rllib.policy.sample_batch.DEFAULT_POLICY_ID], likewise. *)
Variable DEFAULT_POLICY_ID : string.

(** Lines 37-39: one entry of a module's data.
    [if isinstance(col_data, list) and col != SampleBatch.INFOS:
         module_data[col] = batch(col_data)] *)
Definition batch_module_column (module_data : dict) (entry : key * value)
  : result dict :=
  let '(col, col_data) := entry in
  match col_data with
  | VList items =>
      if decide (col = KStr SampleBatch.INFOS) then Ok module_data
      else b ← batch items; Ok (dict_set col b module_data)
  | _ => Ok module_data
  end.

(** Lines 36-39: [for col, col_data in module_data.copy().items(): ...].
    Each key of the copy is visited once and an iteration rebinds only its
    own key, so the values of the copy are the live ones. *)
Definition batch_module_data (column_data : value) : result dict :=
  match column_data with
  | VDict module_data =>
      for_each batch_module_column module_data module_data
  | _ => Raise AttributeError
  end.

(** Lines 54-58: the items of one episode.
    [if column == SampleBatch.OBS: memorized_map_structure.append(eps_id)
     list_to_be_batched.append(item)] *)
Definition append_item (column : key) (eps_id : string)
    (acc : list value * list value) (item : value)
  : list value * list value :=
  let '(memorized_map_structure, list_to_be_batched) := acc in
  ((if decide (column = KStr SampleBatch.OBS)
    then memorized_map_structure ++ [VStr eps_id]
    else memorized_map_structure),
   list_to_be_batched ++ [item]).

(** Lines 53-58: one key of [column_data.keys()]. *)
Definition collect_episode (column : key) (column_data : dict)
    (acc : list value * list value) (k : key)
  : result (list value * list value) :=
  eps_id ← unpack1 k;
  eps_items ← getitem column_data (KTuple [eps_id]);
  items ← py_iter eps_items;
  Ok (foldl (append_item column eps_id) acc items).

(** Lines 65-68: [data[DEFAULT_POLICY_ID][column] = data.pop(column)],
    after [data[DEFAULT_POLICY_ID] = {}] when the key is missing. The
    right-hand side runs first, so the lookup of [DEFAULT_POLICY_ID] sees
    the dictionary without [column]. Item assignment with a string index
    fails on anything but a dictionary: with [IndexError] on an array, with
    [TypeError] otherwise. *)
Definition move_to_default_policy (column : key) (data : dict) : result dict :=
  let data :=
    if dict_in (KStr DEFAULT_POLICY_ID) data then data
    else dict_set (KStr DEFAULT_POLICY_ID) (VDict []) data in
  popped ← getitem data column;
  let data := dict_pop column data in
  target ← getitem data (KStr DEFAULT_POLICY_ID);
  match target with
  | VDict policy_data =>
      Ok (dict_set (KStr DEFAULT_POLICY_ID)
            (VDict (dict_set column popped policy_data)) data)
  | VArray _ => Raise IndexError
  | _ => Raise TypeError
  end.

(** Lines 49-72: the single-agent branch. *)
Definition batch_episodes (is_marl_module : bool) (column : key)
    (column_data : value) (st : state) : result state :=
  let '(data, shared_data) := st in
  match column_data with
  | VDict eps_data =>
      '(memorized_map_structure, list_to_be_batched) ←
        for_each (collect_episode column eps_data) (dict_keys eps_data) ([], []);
      new_data ←
        (if decide (column = KStr SampleBatch.INFOS)
         then Ok (VList list_to_be_batched)
         else batch list_to_be_batched);
      let data := dict_set column new_data data in
      data ← (if is_marl_module then move_to_default_policy column data
              else Ok data);
      if decide (column = KStr SampleBatch.OBS) then
        match shared_data with
        | Some sd =>
            Ok (data,
                Some (dict_set (KStr "memorized_map_structure")
                        (VList memorized_map_structure) sd))
        | None => Raise TypeError
        end
      else Ok (data, shared_data)
  | _ => Raise AttributeError
  end.

(** Lines 29-79: the body of the loop over [data.copy().items()].

    The copy is shallow: the [column_data] it yields for [column] is the
    very object [data[column]] holds, and what earlier iterations did to
    that object in place (entries added under [DEFAULT_POLICY_ID]) is
    seen through it. An iteration removes or rebinds no key of the copy
    but its own, so that object is the live entry of [column]; the entry
    of the copy is only the fallback for a key that is gone. The input is
    taken to be a tree (no object is reachable along two paths). *)
Definition process_column (rl_module : rl_module) (is_multi_agent : bool)
    (st : state) (entry : key * value) : result state :=
  let '(column, copied) := entry in
  let '(data, shared_data) := st in
  let column_data := default copied (dict_get column data) in
  let is_marl_module := is_MultiAgentRLModule rl_module in
  if is_marl_module && module_contains rl_module column then
    if is_multi_agent then
      module_data ← batch_module_data column_data;
      Ok (dict_set column (VDict module_data) data, shared_data)
    else Raise AssertionError
  else if is_list column_data then
    match column_data with
    | VList items =>
        b ← batch items; Ok (dict_set column b data, shared_data)
    | _ => Ok st
    end
  else if negb is_multi_agent then
    batch_episodes is_marl_module column column_data st
  else Raise NotImplementedError.

(** [BatchIndividualItems.__call__]: the returned [data] and the final
    [shared_data]. *)
Definition call (rl_module : rl_module) (data : value)
    (episodes : list episode) (shared_data : option dict)
  : result (value * option dict) :=
  first ← match episodes with
          | e :: _ => Ok e
          | [] => Raise IndexError
          end;
  let is_multi_agent := is_MultiAgentEpisode first in
  match data with
  | VDict d =>
      '(d', shared_data') ←
        for_each (process_column rl_module is_multi_agent) d (d, shared_data);
      Ok (VDict d', shared_data')
  | _ => Raise AttributeError
  end.

End BatchIndividualItems.

(* ===================================================================== *)
(** * The RL module [DQNRainbowRLModule] *)
(* ===================================================================== *)

(** [bool(v)], as an [if] takes it. An array of more than one element has
    no truth value. *)
Fixpoint truthy (v : value) : result bool :=
  match v with
  | VNone => Ok false
  | VBool b => Ok b
  | VInt z => Ok (negb (z =? 0))
  | VStr s => Ok (negb (bool_decide (s = "")))
  | VTuple l | VList l => Ok (negb (bool_decide (l = [])))
  | VDict d => Ok (negb (bool_decide (d = [])))
  | VArray [] => Ok false
  | VArray [x] => truthy x
  | VArray _ => Raise ValueError
  end.

(** [bool(v > 1)], as an [if] takes it. [True] and [False] compare as 1 and
    0; an array compares element by element. *)
Fixpoint gt_one (v : value) : result bool :=
  match v with
  | VInt z => Ok (1 <? z)
  | VBool _ => Ok false
  | VArray [] => Ok false
  | VArray [x] => gt_one x
  | VArray _ => Raise ValueError
  | VNone | VStr _ | VTuple _ | VList _ | VDict _ => Raise TypeError
  end.

(** A network as far as the module looks at it: what was built, and the
    [trainable] attribute. *)
Record model : Type := Model {
  architecture : string;
  trainable : bool
}.

(** An attribute of the module: plain data, a reference to a network in the
    object store, a scheduler with the value or schedule it was built from,
    or the action distribution class. *)
Inductive attr : Type :=
| AValue (v : value)
| ARef (loc : nat)
| AScheduler (fixed_value_or_schedule : value) (framework : string)
| AClass (name : string).

(** [self.__dict__] and the networks it refers to. *)
Record module_state : Type := ModuleState {
  self : gmap string attr;
  objects : list model
}.

(** Computations on the module: they read and write its state and may
    raise. *)
Definition M (A : Type) : Type := module_state -> result (A * module_state).

#[global] Instance M_ret : MRet M := fun _ a st => Ok (a, st).
#[global] Instance M_bind : MBind M := fun _ _ f m st =>
  match m st with
  | Ok (a, st') => f a st'
  | Raise e => Raise e
  end.

Definition raise {A : Type} (e : exn) : M A := fun _ => Raise e.

Definition lift {A : Type} (r : result A) : M A := fun st =>
  match r with
  | Ok a => Ok (a, st)
  | Raise e => Raise e
  end.

(** [self.name = a] *)
Definition setattr (name : string) (a : attr) : M unit := fun st =>
  Ok (tt, ModuleState (<[name := a]> (self st)) (objects st)).

(** [self.name] *)
Definition getattr (name : string) : M attr := fun st =>
  match self st !! name with
  | Some a => Ok (a, st)
  | None => Raise AttributeError
  end.

(** A freshly built network enters the object store; the reference to it is
    returned. *)
Definition new_object (m : model) : M attr := fun st =>
  Ok (ARef (length (objects st)), ModuleState (self st) (objects st ++ [m])).

(** [a.trainable = b] *)
Definition set_trainable (a : attr) (b : bool) : M unit := fun st =>
  match a with
  | ARef loc =>
      match objects st !! loc with
      | Some m =>
          Ok (tt, ModuleState (self st)
                    (<[loc := Model (architecture m) b]> (objects st)))
      | None => Raise AttributeError
      end
  | _ => Raise AttributeError
  end.

(** Modelled from the spec: [DQNRainbowCatalog] is not among the sources.
    The module is assembled from the networks the catalog builds (encoder,
    advantage head, value head); a call of a builder returns a new network. *)
Record DQNRainbowCatalog : Type := Catalog {
  encoder_built : string -> model;
  af_head_built : string -> model;
  vf_head_built : string -> model;
  action_dist_cls : string -> string
}.

Definition build_encoder (catalog : DQNRainbowCatalog) (framework : string) : M attr :=
  new_object (encoder_built catalog framework).
Definition build_af_head (catalog : DQNRainbowCatalog) (framework : string) : M attr :=
  new_object (af_head_built catalog framework).
Definition build_vf_head (catalog : DQNRainbowCatalog) (framework : string) : M attr :=
  new_object (vf_head_built catalog framework).
Definition get_action_dist_cls (catalog : DQNRainbowCatalog) (framework : string) : M attr :=
  mret (AClass (action_dist_cls catalog framework)).

(** What [RLModule.__init__] hands to [setup]: [self.config] with its
    catalog and [model_config_dict], and [self.framework]. *)
Record RLModuleConfig : Type := Config {
  get_catalog : DQNRainbowCatalog;
  model_config_dict : gmap string value
}.

(** [d.get(name)] on the model configuration. *)
Definition config_get (d : gmap string value) (name : string) : value :=
  default VNone (d !! name).

(** [d[name]] on the model configuration. *)
Definition config_item (d : gmap string value) (name : string) : result value :=
  match d !! name with
  | Some v => Ok v
  | None => Raise KeyError
  end.

(** [if self.name:] *)
Definition attr_truthy (name : string) : M bool :=
  a ← getattr name;
  match a with
  | AValue v => lift (truthy v)
  | _ => mret true
  end.

(** [if self.name > 1:] *)
Definition attr_gt_one (name : string) : M bool :=
  a ← getattr name;
  match a with
  | AValue v => lift (gt_one v)
  | _ => raise TypeError
  end.

Definition when (c : bool) (m : M unit) : M unit :=
  if c then m else mret tt.

Definition ATOMS := "atoms".
Definition QF_LOGITS := "qf_logits".
Definition QF_PROBS := "qf_probs".
Definition QF_TARGET_NEXT_PREDS := "qf_target_next_preds".
Definition QF_TARGET_NEXT_PROBS := "qf_target_next_probs".

(** Modelled from the spec: [QF_PREDS] comes from
    [ray.rllib.algorithms.sac.sac_learner], which is not among the sources;
    the specification names the key "qf_preds". *)
Definition QF_PREDS := "qf_preds".

Section DQNRainbowRLModule.

(** [ray.rllib.utils.schedules.scheduler.Scheduler] is not among the
    sources: its constructor is a parameter, applied to the positional and
    to the keyword arguments of a call; it returns the scheduler or
    raises. *)
Variable Scheduler : list value -> list (string * value) -> result attr.

(** [self.config] and [self.framework]. *)
Variable config : RLModuleConfig.
Variable framework : string.

(** The column names [SampleBatch.ACTIONS], [SampleBatch.NEXT_OBS] and
    [SampleBatch.T], from a file that is not among the sources. *)
Variables ACTIONS NEXT_OBS T : string.

(** [DQNRainbowRLModule.setup]. Line 49 calls [Scheduler] with the
    "epsilon" entry as a positional argument and [framework] as a keyword
    argument. *)
Definition setup : M unit :=
  let catalog := get_catalog config in
  setattr "is_dueling" (AValue (config_get (model_config_dict config) "dueling"));;
  setattr "uses_noisy" (AValue (config_get (model_config_dict config) "noisy"));;
  setattr "num_atoms" (AValue (config_get (model_config_dict config) "num_atoms"));;
  distributional ← attr_gt_one "num_atoms";
  when distributional (
    setattr "v_min" (AValue (config_get (model_config_dict config) "v_min"));;
    setattr "v_max" (AValue (config_get (model_config_dict config) "v_max")));;
  uses_noisy ← attr_truthy "uses_noisy";
  when (negb uses_noisy) (
    epsilon ← lift (config_item (model_config_dict config) "epsilon");
    schedule ← lift (Scheduler [epsilon] [("framework", VStr framework)]);
    setattr "epsilon_schedule" schedule);;
  encoder ← build_encoder catalog framework;
  setattr "encoder" encoder;;
  target_encoder ← build_encoder catalog framework;
  setattr "target_encoder" target_encoder;;
  af ← build_af_head catalog framework;
  setattr "af" af;;
  is_dueling ← attr_truthy "is_dueling";
  when is_dueling (
    vf ← build_vf_head catalog framework;
    setattr "vf" vf);;
  af_target ← build_af_head catalog framework;
  setattr "af_target" af_target;;
  is_dueling ← attr_truthy "is_dueling";
  when is_dueling (
    vf_target ← build_vf_head catalog framework;
    setattr "vf_target" vf_target);;
  target_encoder ← getattr "target_encoder";
  set_trainable target_encoder false;;
  af_target ← getattr "af_target";
  set_trainable af_target false;;
  is_dueling ← attr_truthy "is_dueling";
  when is_dueling (
    vf_target ← getattr "vf_target";
    set_trainable vf_target false);;
  action_dist_cls ← get_action_dist_cls catalog framework;
  setattr "action_dist_cls" action_dist_cls.

(** [get_exploration_action_dist_cls] *)
Definition get_exploration_action_dist_cls : M attr :=
  getattr "action_dist_cls".

(** [get_initial_state] *)
Definition get_initial_state : M value := mret (VDict []).

Definition input_specs_exploration : M (list string) :=
  mret [SampleBatch.OBS; T].

Definition input_specs_inference : M (list string) :=
  mret [SampleBatch.OBS].

Definition input_specs_train : M (list string) :=
  mret [SampleBatch.OBS; ACTIONS; NEXT_OBS].

Definition output_specs_exploration : M (list string) := mret [ACTIONS].

Definition output_specs_inference : M (list string) := mret [ACTIONS].

(** [output_specs_train]: the three distributional keys are spliced in
    [if self.num_atoms > 1]. *)
Definition output_specs_train : M (list string) :=
  distributional ← attr_gt_one "num_atoms";
  mret ([QF_PREDS; QF_TARGET_NEXT_PREDS]
          ++ (if distributional : bool
              then [ATOMS; QF_LOGITS; QF_TARGET_NEXT_PROBS]
              else [])).

(** The methods the class implements besides [setup]; [_qf],
    [_qf_target], [_af_dist] and [_qf_forward_helper] are abstract. *)
Inductive method : Type :=
| Get_exploration_action_dist_cls
| Get_initial_state
| Input_specs_exploration
| Input_specs_inference
| Input_specs_train
| Output_specs_exploration
| Output_specs_inference
| Output_specs_train.

Inductive returned : Type :=
| RAttr (a : attr)
| RValue (v : value)
| RSpec (keys : list string).

Definition invoke (m : method) : M returned :=
  match m with
  | Get_exploration_action_dist_cls =>
      a ← get_exploration_action_dist_cls; mret (RAttr a)
  | Get_initial_state => v ← get_initial_state; mret (RValue v)
  | Input_specs_exploration => l ← input_specs_exploration; mret (RSpec l)
  | Input_specs_inference => l ← input_specs_inference; mret (RSpec l)
  | Input_specs_train => l ← input_specs_train; mret (RSpec l)
  | Output_specs_exploration => l ← output_specs_exploration; mret (RSpec l)
  | Output_specs_inference => l ← output_specs_inference; mret (RSpec l)
  | Output_specs_train => l ← output_specs_train; mret (RSpec l)
  end.

(** A sequence of method calls on the module, one after the other. *)
Fixpoint invoke_all (ms : list method) : M (list returned) :=
  match ms with
  | [] => mret []
  | m :: ms' => r ← invoke m; rs ← invoke_all ms'; mret (r :: rs)
  end.

End DQNRainbowRLModule.

(** The module before [setup] has run: no attribute of the class is set and
    no network is built. *)
Definition fresh_module : module_state := ModuleState ∅ [].

(* ===================================================================== *)
(** * Vocabulary of the properties *)
(* ===================================================================== *)

(** A per-episode mapping [{(eps_id,): [item, ...], ...}], written from the
    list of its episodes in key order. *)
Definition episodes_dict (eps : list (string * list value)) : dict :=
  (λ ep, (KTuple [ep.1], VList ep.2)) <$> eps.

(** All items of all episodes: episodes in key order, items in list order. *)
Definition concat_items (eps : list (string * list value)) : list value :=
  eps ≫= snd.

(** The id of the episode each of these items comes from, item by item. *)
Definition item_episodes (eps : list (string * list value)) : list value :=
  eps ≫= (λ ep, replicate (length ep.2) (VStr ep.1)).

(** [column] is a key of [rl_module], a [MultiAgentRLModule]. *)
Definition module_column (rl_module : rl_module) (column : key) : bool :=
  is_MultiAgentRLModule rl_module && module_contains rl_module column.

(** The call files the columns of single-agent episodes under
    [DEFAULT_POLICY_ID]: the module is a [MultiAgentRLModule] and the first
    episode is a single-agent one. *)
Definition files_under_default_policy (rl_module : rl_module)
    (episodes : list episode) : bool :=
  is_MultiAgentRLModule rl_module
  && match head episodes with
     | Some SingleAgentEpisode => true
     | _ => false
     end.

(** A column the single-agent call can reshape: a list [batch] accepts, or
    a per-episode mapping whose concatenated items [batch] accepts (the
    items of "infos" are not handed to [batch]). *)
Definition reshapable (batch : list value -> result value)
    (entry : key * value) : Prop :=
  (exists items b, entry.2 = VList items /\ batch items = Ok b)
  \/ (exists eps,
        entry.2 = VDict (episodes_dict eps) /\ NoDup eps.*1
        /\ (entry.1 = KStr SampleBatch.INFOS
            \/ exists b, batch (concat_items eps) = Ok b)).

(** After [setup]: the network an attribute of the module refers to. *)
Definition network_at (st : module_state) (name : string) : option model :=
  match self st !! name with
  | Some (ARef loc) => objects st !! loc
  | _ => None
  end.

(** A network with training switched off. *)
Definition frozen (m : model) : model := Model (architecture m) false.

(** A flag of the model configuration is set: [if flag:] takes the branch. *)
Definition flag_set (config : RLModuleConfig) (name : string) : Prop :=
  truthy (config_get (model_config_dict config) name) = Ok true.

(** A constructor whose parameters are all keyword-only (declared after a
    bare [*]): a call with a positional argument raises [TypeError]. *)
Definition keyword_only
    (constructor : list value -> list (string * value) -> result attr) : Prop :=
  forall arg args kwargs, constructor (arg :: args) kwargs = Raise TypeError.

(** The keyword arguments of the call of [Scheduler] in [setup]. *)
Definition scheduler_kwargs (framework : string) : list (string * value) :=
  [("framework", VStr framework)].

(** The names under which [setup] keeps the target networks. *)
Definition target_names : list string :=
  ["target_encoder"; "af_target"; "vf_target"].

(** The names under which [setup] keeps the networks it builds. *)
Definition network_names : list string :=
  ["encoder"; "target_encoder"; "af"; "vf"; "af_target"; "vf_target"].

(** The attributes and networks [setup] leaves on a fresh module when
    [num_atoms > 1] evaluates to [distributional], the noisy flag to
    [uses_noisy], the dueling flag to [is_dueling] and the call of
    [Scheduler], when it is made, returns [epsilon_schedule]. *)
Definition after_setup (config : RLModuleConfig) (framework : string)
    (distributional uses_noisy is_dueling : bool) (epsilon_schedule : attr)
  : module_state :=
  let get := config_get (model_config_dict config) in
  let catalog := get_catalog config in
  let enc := encoder_built catalog framework in
  let af := af_head_built catalog framework in
  let vf := vf_head_built catalog framework in
  let s : gmap string attr :=
    <["num_atoms" := AValue (get "num_atoms")]>
      (<["uses_noisy" := AValue (get "noisy")]>
         (<["is_dueling" := AValue (get "dueling")]> ∅)) in
  let s := if distributional
           then <["v_max" := AValue (get "v_max")]>
                  (<["v_min" := AValue (get "v_min")]> s)
           else s in
  let s := if uses_noisy then s
           else <["epsilon_schedule" := epsilon_schedule]> s in
  let s := <["af" := ARef 2]>
             (<["target_encoder" := ARef 1]> (<["encoder" := ARef 0]> s)) in
  let s := if is_dueling then <["vf" := ARef 3]> s else s in
  let s := <["af_target" := ARef (if is_dueling then 4 else 3)%nat]> s in
  let s := if is_dueling then <["vf_target" := ARef 5]> s else s in
  let s := <["action_dist_cls" := AClass (action_dist_cls catalog framework)]> s in
  ModuleState s
    ([enc; frozen enc; af]
       ++ (if is_dueling then [vf] else [])
       ++ [frozen af]
       ++ (if is_dueling then [frozen vf] else [])).

(* ===================================================================== *)
(** * Sample inputs *)
(* ===================================================================== *)

Module Samples.

(** Batching as stacking: the items become one array; a list of
    dictionaries with one key becomes a dictionary of arrays; an empty list
    cannot be stacked. *)
Definition stack (l : list value) : result value :=
  match l with
  | [] => Raise ValueError
  | VDict [(k, _)] :: _ =>
      Ok (VDict [(k, VArray ((λ v, match v with
                                   | VDict [(_, x)] => x
                                   | _ => v
                                   end) <$> l))])
  | _ => Ok (VArray l)
  end.

Definition default_policy : string := "default_policy".

(** Two episodes, three time steps, three columns. *)
Definition single_agent_data : dict :=
  [(KStr "obs",
    VDict [(KTuple ["e1"], VList [VInt 1; VInt 2]);
           (KTuple ["e2"], VList [VInt 3])]);
   (KStr "infos",
    VDict [(KTuple ["e1"], VList [VDict []; VDict []]);
           (KTuple ["e2"], VList [VDict []])]);
   (KStr "loss_mask", VList [VBool true; VBool true; VBool false])].

Definition obs_episodes : list (string * list value) :=
  [("e1", [VInt 1; VInt 2]); ("e2", [VInt 3])].

Definition infos_episodes : list (string * list value) :=
  [("e1", [VDict []; VDict []]); ("e2", [VDict []])].

(** What the call makes of [single_agent_data] for a plain module. *)
Definition single_agent_batched : dict :=
  [(KStr "obs", VArray [VInt 1; VInt 2; VInt 3]);
   (KStr "infos", VList [VDict []; VDict []; VDict []]);
   (KStr "loss_mask", VArray [VBool true; VBool true; VBool false])].

Definition memorized : dict :=
  [(KStr "memorized_map_structure",
    VList [VStr "e1"; VStr "e1"; VStr "e2"])].

(** Module data as the agent-to-module mapping leaves it. *)
Definition multi_agent_data : dict :=
  [(KStr "m1",
    VDict [(KStr "obs", VList [VInt 1; VInt 2]);
           (KStr "infos", VList [VDict []; VDict []])])].

(** Multi-agent data that was not mapped to modules. *)
Definition unmapped_data : dict :=
  [(KStr "obs", VDict [(KTuple ["e1"; "agent0"; "m1"], VList [VInt 1])])].

Definition catalog : DQNRainbowCatalog :=
  Catalog (λ _, Model "encoder" true) (λ _, Model "af_head" true)
    (λ _, Model "vf_head" true) (λ _, "TorchCategorical").


(** Plain DQN with noisy layers. *)
Definition noisy_config : RLModuleConfig :=
  Config catalog
    (list_to_map [("dueling", VBool false); ("noisy", VBool true);
                  ("num_atoms", VInt 1)]).

(** What the call makes of [multi_agent_data]. *)
Definition multi_agent_batched : dict :=
  [(KStr "m1",
    VDict [(KStr "obs", VArray [VInt 1; VInt 2]);
           (KStr "infos", VList [VDict []; VDict []])])].

(** What the call makes of [single_agent_data] for a [MultiAgentRLModule]
    that has the default policy. *)
Definition single_agent_filed : dict :=
  [(KStr "loss_mask", VArray [VBool true; VBool true; VBool false]);
   (KStr "default_policy",
    VDict [(KStr "obs", VArray [VInt 1; VInt 2; VInt 3]);
           (KStr "infos", VList [VDict []; VDict []; VDict []])])].

(** Rainbow with noisy layers: dueling and distributional, no epsilon
    schedule. *)
Definition rainbow_config : RLModuleConfig :=
  Config catalog
    (list_to_map [("dueling", VBool true); ("noisy", VBool true);
                  ("num_atoms", VInt 51); ("v_min", VInt (-10));
                  ("v_max", VInt 10)]).

(** A scheduler constructor declared as
    [__init__(self, *, fixed_value_or_schedule, framework)]: it takes its
    arguments by keyword only. *)
Definition keyword_only_scheduler (args : list value)
    (kwargs : list (string * value)) : result attr :=
  match args with
  | [] =>
      match kwargs with
      | [("fixed_value_or_schedule", v); ("framework", VStr framework)]
      | [("framework", VStr framework); ("fixed_value_or_schedule", v)] =>
          Ok (AScheduler v framework)
      | _ => Raise TypeError
      end
  | _ :: _ => Raise TypeError
  end.

(** A list under the key of the default policy, then a per-episode
    column, for a [MultiAgentRLModule] that has no default policy. *)
Definition default_policy_list_data : dict :=
  [(KStr "default_policy", VList [VDict [(KStr "a", VInt 1)]]);
   (KStr "obs", VDict [(KTuple ["e1"], VList [VInt 5])])].

(** What the call makes of it. *)
Definition default_policy_list_result : dict :=
  [(KStr "default_policy",
    VDict [(KStr "a", VArray [VInt 1]); (KStr "obs", VArray [VInt 5])])].

(** A model configuration with nothing in it, and one that only says
    [num_atoms]. *)
Definition empty_config : RLModuleConfig := Config catalog ∅.

Definition bare_config : RLModuleConfig :=
  Config catalog (list_to_map [("num_atoms", VInt 1)]).

End Samples.

(* ===================================================================== *)
(** * Results and loops *)
(* ===================================================================== *)

Lemma for_each_app {A S : Type} (body : S -> A -> result S) xs ys st :
  for_each body (xs ++ ys) st = (st' ← for_each body xs st; for_each body ys st').
Proof.
  revert st. induction xs as [|x xs IH]; intros st; simpl; [done|].
  unfold mbind, result_bind. destruct (body st x); [apply IH | done].
Qed.

(** A loop that returns went through every iteration. *)
Lemma for_each_split {A S : Type} (body : S -> A -> result S) xs x ys st st' :
  for_each body (xs ++ x :: ys) st = Ok st' ->
  exists st1 st2,
    for_each body xs st = Ok st1 /\ body st1 x = Ok st2
    /\ for_each body ys st2 = Ok st'.
Proof.
  rewrite for_each_app. unfold mbind, result_bind.
  destruct (for_each body xs st) as [st1|]; [|done]. simpl.
  unfold mbind, result_bind.
  destruct (body st1 x) as [st2|] eqn:Hx; [|done].
  intros H. exists st1, st2. done.
Qed.

(** An invariant of the iterations that return holds when the loop returns. *)
Lemma for_each_invariant {A S : Type} (body : S -> A -> result S)
    (I : S -> Prop) xs st st' :
  (forall s x s', x ∈ xs -> I s -> body s x = Ok s' -> I s') ->
  I st -> for_each body xs st = Ok st' -> I st'.
Proof.
  revert st. induction xs as [|x xs IH]; intros st Hstep Hst; simpl.
  - by intros [= <-].
  - unfold mbind, result_bind. destruct (body st x) as [s1|] eqn:Hx; [|done].
    apply IH.
    + intros s y s' Hy. apply Hstep. by right.
    + apply (Hstep st x); [by left | done | done].
Qed.

(* ===================================================================== *)
(** * Dictionaries *)
(* ===================================================================== *)

Lemma dict_get_set_eq k v d : dict_get k (dict_set k v d) = Some v.
Proof.
  induction d as [|[k' v'] d IH]; simpl.
  - by rewrite decide_True.
  - destruct (decide (k = k')); simpl.
    + by rewrite decide_True.
    + by rewrite decide_False.
Qed.

Lemma dict_get_set_ne k k' v d :
  k ≠ k' -> dict_get k (dict_set k' v d) = dict_get k d.
Proof.
  intros Hne. induction d as [|[k'' v''] d IH]; simpl.
  - by rewrite decide_False.
  - destruct (decide (k' = k'')) as [->|]; simpl.
    + by rewrite !decide_False.
    + by rewrite IH.
Qed.

Lemma dict_get_pop_ne k k' d :
  k ≠ k' -> dict_get k (dict_pop k' d) = dict_get k d.
Proof.
  intros Hne. induction d as [|[k'' v''] d IH]; simpl; [done|].
  destruct (decide (k' = k'')) as [->|]; simpl.
  - by rewrite decide_False.
  - by rewrite IH.
Qed.

Lemma dict_get_None k d : dict_get k d = None <-> k ∉ dict_keys d.
Proof.
  unfold dict_keys. induction d as [|[k' v'] d IH]; simpl.
  - split; [intros _; apply not_elem_of_nil | done].
  - rewrite not_elem_of_cons. destruct (decide (k = k')); split; try done.
    + by intros [? _].
    + intros H. split; [done | by apply IH].
    + intros [_ H]. by apply IH.
Qed.

Lemma dict_get_Some_keys k v d : dict_get k d = Some v -> k ∈ dict_keys d.
Proof.
  intros H. destruct (decide (k ∈ dict_keys d)) as [|Hn]; [done|].
  apply dict_get_None in Hn. congruence.
Qed.

Lemma dict_get_pop_eq k d : dict_wf d -> dict_get k (dict_pop k d) = None.
Proof.
  unfold dict_wf, dict_keys. induction d as [|[k' v'] d IH]; simpl; [done|].
  intros [Hk Hd]%NoDup_cons. destruct (decide (k = k')) as [->|]; simpl.
  - by apply dict_get_None.
  - rewrite decide_False by done. by apply IH.
Qed.

Lemma dict_keys_set_in k v d :
  k ∈ dict_keys d -> dict_keys (dict_set k v d) = dict_keys d.
Proof.
  unfold dict_keys. induction d as [|[k' v'] d IH]; simpl.
  - by intros ?%elem_of_nil.
  - intros Hk. destruct (decide (k = k')) as [->|]; simpl; [done|].
    f_equal. apply IH. by apply elem_of_cons in Hk as [?|?].
Qed.

Lemma dict_keys_set_new k v d :
  k ∉ dict_keys d -> dict_keys (dict_set k v d) = dict_keys d ++ [k].
Proof.
  unfold dict_keys. induction d as [|[k' v'] d IH]; simpl; [done|].
  intros [Hne Hk]%not_elem_of_cons. rewrite decide_False by done. simpl.
  f_equal. by apply IH.
Qed.

Lemma dict_wf_set k v d : dict_wf d -> dict_wf (dict_set k v d).
Proof.
  intros Hd. unfold dict_wf. destruct (decide (k ∈ dict_keys d)).
  - by rewrite dict_keys_set_in.
  - rewrite dict_keys_set_new by done. apply NoDup_app. split; [done|].
    split; [|apply NoDup_singleton].
    intros x Hx ->%list_elem_of_singleton. done.
Qed.

Lemma dict_keys_pop_subseteq k d : dict_keys (dict_pop k d) ⊆ dict_keys d.
Proof.
  unfold dict_keys. induction d as [|[k' v'] d IH]; simpl; [done|].
  destruct (decide (k = k')); simpl.
  - intros x Hx. by right.
  - intros x [->|Hx]%elem_of_cons; [by left|]. right. by apply IH.
Qed.

Lemma dict_wf_pop k d : dict_wf d -> dict_wf (dict_pop k d).
Proof.
  unfold dict_wf, dict_keys. induction d as [|[k' v'] d IH]; simpl; [done|].
  intros [Hk Hd]%NoDup_cons. destruct (decide (k = k')); simpl; [done|].
  apply NoDup_cons. split; [|by apply IH].
  intros Hin. apply Hk. by apply (dict_keys_pop_subseteq k d).
Qed.

(** In a well-formed dictionary every entry is found under its key. *)
Lemma dict_get_entry k v d : dict_wf d -> (k, v) ∈ d -> dict_get k d = Some v.
Proof.
  unfold dict_wf, dict_keys. induction d as [|[k' v'] d IH]; simpl.
  - by intros _ ?%elem_of_nil.
  - intros [Hk Hd]%NoDup_cons [[= <- <-]|Hin]%elem_of_cons.
    + by rewrite decide_True.
    + rewrite decide_False; [by apply IH|].
      intros ->. apply Hk. by apply (list_elem_of_fmap_2 fst _ (k', v)).
Qed.

Lemma dict_get_elem_of k v d : dict_get k d = Some v -> (k, v) ∈ d.
Proof.
  induction d as [|[k' v'] d IH]; simpl; [done|].
  destruct (decide (k = k')) as [->|].
  - intros [= ->]. by left.
  - intros H. right. by apply IH.
Qed.

(* ===================================================================== *)
(** * The connector: one column at a time *)
(* ===================================================================== *)

Section BatchIndividualItemsProperties.

Variable batch : list value -> result value.
Variable DEFAULT_POLICY_ID : string.

Lemma episodes_dict_wf eps : NoDup eps.*1 -> dict_wf (episodes_dict eps).
Proof.
  unfold dict_wf, dict_keys, episodes_dict. rewrite <- list_fmap_compose.
  intros Hnd.
  replace (fst ∘ (λ ep : string * list value, (KTuple [ep.1], VList ep.2)))
    with ((λ e, KTuple [e]) ∘ (fst : string * list value -> string)) by done.
  rewrite list_fmap_compose. apply NoDup_fmap_2; [|done].
  by intros e1 e2 [= ->].
Qed.

Lemma dict_get_episode eps eps_id items :
  NoDup eps.*1 -> (eps_id, items) ∈ eps ->
  dict_get (KTuple [eps_id]) (episodes_dict eps) = Some (VList items).
Proof.
  intros Hnd Hin. apply dict_get_entry; [by apply episodes_dict_wf|].
  unfold episodes_dict. apply list_elem_of_fmap. by exists (eps_id, items).
Qed.

(** The inner loop over the items of one episode appends them in order,
    with the episode's id once per item when the column is "obs". *)
Lemma foldl_append_item column eps_id items mms ltb :
  foldl (append_item column eps_id) (mms, ltb) items
  = (mms ++ (if decide (column = KStr SampleBatch.OBS)
             then replicate (length items) (VStr eps_id) else []),
     ltb ++ items).
Proof.
  revert mms ltb. induction items as [|item items IH]; intros mms ltb; simpl.
  - destruct (decide _); by rewrite !app_nil_r.
  - rewrite IH. destruct (decide _); simpl; by rewrite <- !app_assoc.
Qed.

Lemma collect_episode_eq column eps eps_id items acc :
  NoDup eps.*1 -> (eps_id, items) ∈ eps ->
  collect_episode column (episodes_dict eps) acc (KTuple [eps_id])
  = Ok (foldl (append_item column eps_id) acc items).
Proof.
  intros Hnd Hin. unfold collect_episode, getitem. simpl.
  by rewrite (dict_get_episode eps eps_id items).
Qed.

(** The loop over the episodes of a per-episode mapping. *)
Lemma collect_episodes column eps eps' mms ltb :
  NoDup eps.*1 -> eps' ⊆ eps ->
  for_each (collect_episode column (episodes_dict eps))
    (dict_keys (episodes_dict eps')) (mms, ltb)
  = Ok (mms ++ (if decide (column = KStr SampleBatch.OBS)
                then item_episodes eps' else []),
        ltb ++ concat_items eps').
Proof.
  intros Hnd. revert mms ltb.
  induction eps' as [|[eps_id items] eps' IH]; intros mms ltb Hsub; simpl.
  - destruct (decide _); by rewrite !app_nil_r.
  - rewrite (collect_episode_eq column eps eps_id items);
      [|done|apply Hsub; by left].
    simpl. rewrite foldl_append_item.
    rewrite IH by (intros x Hx; apply Hsub; by right).
    unfold item_episodes, concat_items. simpl.
    destruct (decide _); simpl; by rewrite <- !app_assoc.
Qed.

(** The single-agent branch on a per-episode mapping: concatenate, batch
    unless the column is "infos", file under [DEFAULT_POLICY_ID] for a
    [MultiAgentRLModule], record the structure for "obs". *)
Lemma batch_episodes_eq is_marl_module column eps data shared_data :
  NoDup eps.*1 ->
  batch_episodes batch DEFAULT_POLICY_ID is_marl_module column (VDict (episodes_dict eps))
    (data, shared_data)
  = (new_data ← (if decide (column = KStr SampleBatch.INFOS)
                 then Ok (VList (concat_items eps))
                 else batch (concat_items eps));
     data' ← (if is_marl_module
              then move_to_default_policy DEFAULT_POLICY_ID column (dict_set column new_data data)
              else Ok (dict_set column new_data data));
     if decide (column = KStr SampleBatch.OBS) then
       match shared_data with
       | Some sd =>
           Ok (data',
               Some (dict_set (KStr "memorized_map_structure")
                       (VList (item_episodes eps)) sd))
       | None => Raise TypeError
       end
     else Ok (data', shared_data)).
Proof.
  intros Hnd. unfold batch_episodes.
  rewrite (collect_episodes column eps eps [] []) by done. simpl.
  destruct (decide (column = KStr SampleBatch.OBS)); done.
Qed.

(** [data[DEFAULT_POLICY_ID][column] = data.pop(column)] touches two keys. *)
Lemma move_to_default_policy_frame column data data' c :
  move_to_default_policy DEFAULT_POLICY_ID column data = Ok data' ->
  c ≠ column -> c ≠ KStr DEFAULT_POLICY_ID ->
  dict_get c data' = dict_get c data.
Proof.
  unfold move_to_default_policy, getitem. intros H Hc Hd.
  set (data1 := if dict_in _ data then data else _) in H.
  assert (dict_get c data1 = dict_get c data) as <-.
  { subst data1. destruct (dict_in _ data); [done|]. by apply dict_get_set_ne. }
  destruct (dict_get column data1); simpl in H; [|done].
  destruct (dict_get _ (dict_pop column data1)) as [[]|]; simpl in H; try done.
  injection H as <-. rewrite dict_get_set_ne by done.
  by apply dict_get_pop_ne.
Qed.

(** When the move returns, [column] is not [DEFAULT_POLICY_ID] itself, and
    [data[DEFAULT_POLICY_ID]] is a dictionary that holds the moved column
    besides what it held before. *)
Lemma move_to_default_policy_inv column data data' :
  dict_wf data -> move_to_default_policy DEFAULT_POLICY_ID column data = Ok data' ->
  column ≠ KStr DEFAULT_POLICY_ID
  /\ dict_wf data'
  /\ exists popped policy_data,
       dict_get column data = Some popped
       /\ (dict_get (KStr DEFAULT_POLICY_ID) data = Some (VDict policy_data)
           \/ dict_get (KStr DEFAULT_POLICY_ID) data = None /\ policy_data = [])
       /\ dict_get (KStr DEFAULT_POLICY_ID) data'
          = Some (VDict (dict_set column popped policy_data)).
Proof.
  unfold move_to_default_policy, getitem. intros Hwf H.
  set (data1 := if dict_in _ data then data else _) in H.
  assert (dict_wf data1) as Hwf1.
  { subst data1. destruct (dict_in _ data); [done | by apply dict_wf_set]. }
  destruct (dict_get column data1) as [popped|] eqn:Hpop; simpl in H; [|done].
  destruct (dict_get _ (dict_pop column data1)) as [target|] eqn:Ht;
    simpl in H; [|done].
  assert (column ≠ KStr DEFAULT_POLICY_ID) as Hne.
  { intros ->. rewrite dict_get_pop_eq in Ht by done. done. }
  rewrite dict_get_pop_ne in Ht by done.
  destruct target as [| | | | | | |policy_data]; try done. injection H as <-.
  split; [done|]. split; [by apply dict_wf_set, dict_wf_pop|].
  exists popped, policy_data. subst data1. unfold dict_in in *.
  destruct (dict_get (KStr DEFAULT_POLICY_ID) data) as [v|] eqn:Hdp.
  - split; [done|]. split; [left; congruence | apply dict_get_set_eq].
  - rewrite dict_get_set_ne in Hpop by done.
    rewrite dict_get_set_eq in Ht. injection Ht as <-.
    split; [done|]. split; [by right | apply dict_get_set_eq].
Qed.

(** *** The branches of the loop body *)

(** The simple case: a list directly under [column]. *)
Lemma process_column_list rl_module is_multi_agent data shared_data column
    copied items :
  dict_get column data = Some (VList items) ->
  module_column rl_module column = false ->
  process_column batch DEFAULT_POLICY_ID rl_module is_multi_agent (data, shared_data) (column, copied)
  = (b ← batch items; Ok (dict_set column b data, shared_data)).
Proof.
  unfold process_column, module_column. intros -> ->. done.
Qed.

(** The single-agent case: neither a module column nor a list. *)
Lemma process_column_single_agent rl_module data shared_data column copied v :
  dict_get column data = Some v -> is_list v = false ->
  module_column rl_module column = false ->
  process_column batch DEFAULT_POLICY_ID rl_module false (data, shared_data) (column, copied)
  = batch_episodes batch DEFAULT_POLICY_ID (is_MultiAgentRLModule rl_module) column v
      (data, shared_data).
Proof.
  unfold process_column, module_column. intros -> Hl ->. simpl.
  by rewrite Hl.
Qed.

(** The multi-agent case: the data of a module. *)
Lemma process_column_module rl_module data shared_data column copied v :
  dict_get column data = Some v ->
  module_column rl_module column = true ->
  process_column batch DEFAULT_POLICY_ID rl_module true (data, shared_data) (column, copied)
  = (module_data ← batch_module_data batch v;
     Ok (dict_set column (VDict module_data) data, shared_data)).
Proof.
  unfold process_column, module_column. intros -> ->. done.
Qed.

(** A module column with single-agent episodes fails the assertion. *)
Lemma process_column_assert rl_module st column copied :
  module_column rl_module column = true ->
  process_column batch DEFAULT_POLICY_ID rl_module false st (column, copied) = Raise AssertionError.
Proof.
  unfold process_column, module_column. destruct st. by intros ->.
Qed.

(** Multi-agent episodes and a column that is neither a module's nor a
    list. *)
Lemma process_column_unmapped rl_module data shared_data column copied v :
  dict_get column data = Some v -> is_list v = false ->
  module_column rl_module column = false ->
  process_column batch DEFAULT_POLICY_ID rl_module true (data, shared_data) (column, copied)
  = Raise NotImplementedError.
Proof.
  unfold process_column, module_column. intros -> Hl ->. simpl.
  by rewrite Hl.
Qed.

(** *** What an iteration that returns has done *)

Lemma batch_episodes_inv is_marl_module column v data shared_data data'
    shared_data' :
  batch_episodes batch DEFAULT_POLICY_ID is_marl_module column v (data, shared_data)
  = Ok (data', shared_data') ->
  (column ≠ KStr SampleBatch.OBS -> shared_data' = shared_data)
  /\ exists new_data,
       if is_marl_module
       then move_to_default_policy DEFAULT_POLICY_ID column (dict_set column new_data data)
            = Ok data'
       else data' = dict_set column new_data data.
Proof.
  unfold batch_episodes. destruct v; try done.
  destruct (for_each _ _ _) as [[mms ltb]|]; simpl; [|done].
  destruct (if decide (column = KStr SampleBatch.INFOS) then _ else _)
    as [new_data|]; simpl; [|done].
  destruct is_marl_module; simpl.
  - destruct (move_to_default_policy _ _ _) as [data2|] eqn:Hmove;
      simpl; [|done].
    destruct (decide (column = KStr SampleBatch.OBS)).
    + destruct shared_data; [|done]. intros [= <- <-]. split; [done|].
      by exists new_data.
    + intros [= <- <-]. split; [done|]. by exists new_data.
  - destruct (decide (column = KStr SampleBatch.OBS)).
    + destruct shared_data; [|done]. intros [= <- <-]. split; [done|].
      by exists new_data.
    + intros [= <- <-]. split; [done|]. by exists new_data.
Qed.

(** An iteration rebinds its own column; only the single-agent branch under
    a [MultiAgentRLModule] moves it, and only the "obs" column touches
    [shared_data]. *)
Lemma process_column_inv rl_module is_multi_agent data shared_data column
    copied data' shared_data' :
  process_column batch DEFAULT_POLICY_ID rl_module is_multi_agent (data, shared_data) (column, copied)
  = Ok (data', shared_data') ->
  (column ≠ KStr SampleBatch.OBS -> shared_data' = shared_data)
  /\ exists new_data,
       (data' = dict_set column new_data data
        /\ (is_multi_agent = true
            \/ is_list (default copied (dict_get column data)) = true
            \/ is_MultiAgentRLModule rl_module = false))
       \/ (is_MultiAgentRLModule rl_module = true /\ is_multi_agent = false
           /\ move_to_default_policy DEFAULT_POLICY_ID column (dict_set column new_data data)
              = Ok data').
Proof.
  unfold process_column.
  set (column_data := default copied (dict_get column data)).
  destruct (is_MultiAgentRLModule rl_module && module_contains rl_module column).
  { destruct is_multi_agent; [|done].
    destruct (batch_module_data batch column_data) as [md|]; simpl; [|done].
    intros [= <- <-]. split; [done|]. exists (VDict md). left. auto. }
  destruct (is_list column_data) eqn:Hl.
  { destruct column_data; try done.
    destruct (batch items) as [b|]; simpl; [|done].
    intros [= <- <-]. split; [done|]. exists b. left. auto. }
  destruct is_multi_agent; simpl; [done|].
  intros [Hsd [new_data Hnew]]%batch_episodes_inv. split; [done|].
  exists new_data.
  destruct (is_MultiAgentRLModule rl_module); [right|left]; auto.
Qed.

Lemma process_column_frame rl_module is_multi_agent data shared_data column
    copied data' shared_data' c :
  process_column batch DEFAULT_POLICY_ID rl_module is_multi_agent (data, shared_data) (column, copied)
  = Ok (data', shared_data') ->
  c ≠ column ->
  (is_MultiAgentRLModule rl_module = true -> is_multi_agent = false ->
   c ≠ KStr DEFAULT_POLICY_ID) ->
  dict_get c data' = dict_get c data.
Proof.
  intros [_ [new_data [[-> _]|(Hm & Hs & Hmove)]]]%process_column_inv Hc Hdp.
  - by apply dict_get_set_ne.
  - rewrite (move_to_default_policy_frame _ _ _ c Hmove) by auto.
    by apply dict_get_set_ne.
Qed.

Lemma process_column_wf rl_module is_multi_agent data shared_data column
    copied data' shared_data' :
  process_column batch DEFAULT_POLICY_ID rl_module is_multi_agent (data, shared_data) (column, copied)
  = Ok (data', shared_data') ->
  dict_wf data -> dict_wf data'.
Proof.
  intros [_ [new_data [[-> _]|(Hm & Hs & Hmove)]]]%process_column_inv Hwf.
  - by apply dict_wf_set.
  - apply move_to_default_policy_inv in Hmove as (_ & Hwf' & _); [done|].
    by apply dict_wf_set.
Qed.

(** *** The loop over the columns *)

Lemma columns_wf rl_module is_multi_agent todo st st' :
  for_each (process_column batch DEFAULT_POLICY_ID rl_module is_multi_agent) todo st = Ok st' ->
  dict_wf st.1 -> dict_wf st'.1.
Proof.
  intros Hrun Hwf. revert Hwf Hrun.
  apply (for_each_invariant _ (λ s, dict_wf s.1)).
  intros [d sd] [c v] [d' sd'] _ Hw Hstep. cbn [fst snd] in *.
  by eapply process_column_wf.
Qed.

(** The columns the loop does not visit keep their values. *)
Lemma columns_frame rl_module is_multi_agent todo st st' c :
  for_each (process_column batch DEFAULT_POLICY_ID rl_module is_multi_agent) todo st = Ok st' ->
  c ∉ (todo.*1) ->
  (is_MultiAgentRLModule rl_module = true -> is_multi_agent = false ->
   c ≠ KStr DEFAULT_POLICY_ID) ->
  dict_get c st'.1 = dict_get c st.1.
Proof.
  intros Hrun Hc Hdp. revert Hrun.
  apply (for_each_invariant _ (λ s, dict_get c s.1 = dict_get c st.1));
    [|done].
  intros [d sd] [c' v] [d' sd'] Hin Heq Hstep. cbn [fst snd] in *. rewrite <- Heq.
  eapply process_column_frame; [done| |done].
  intros ->. apply Hc. by apply (list_elem_of_fmap_2 fst _ (c', v)).
Qed.

(** [shared_data] is as it was unless the loop visits "obs". *)
Lemma columns_shared_data rl_module is_multi_agent todo st st' :
  for_each (process_column batch DEFAULT_POLICY_ID rl_module is_multi_agent) todo st = Ok st' ->
  KStr SampleBatch.OBS ∉ (todo.*1) ->
  st'.2 = st.2.
Proof.
  intros Hrun Hc. revert Hrun.
  apply (for_each_invariant _ (λ s, s.2 = st.2)); [|done].
  intros [d sd] [c' v] [d' sd'] Hin Heq Hstep. cbn [fst snd] in *. rewrite <- Heq.
  apply process_column_inv in Hstep as [Hsd _]. apply Hsd.
  intros ->. apply Hc. by apply (list_elem_of_fmap_2 fst _ (_, v)).
Qed.

Lemma call_eq rl_module d first rest shared_data :
  call batch DEFAULT_POLICY_ID rl_module (VDict d) (first :: rest) shared_data
  = (st ← for_each
            (process_column batch DEFAULT_POLICY_ID rl_module
               (is_MultiAgentEpisode first)) d (d, shared_data);
     Ok (VDict st.1, st.2)).
Proof.
  unfold call. simpl. by destruct (for_each _ _ _) as [[??]|].
Qed.

(** A call that returns has run the loop over the columns to its end. *)
Lemma call_inv rl_module d episodes shared_data r shared_data' :
  call batch DEFAULT_POLICY_ID rl_module (VDict d) episodes shared_data = Ok (r, shared_data') ->
  exists first d',
    head episodes = Some first /\ r = VDict d'
    /\ for_each (process_column batch DEFAULT_POLICY_ID rl_module (is_MultiAgentEpisode first)) d
         (d, shared_data) = Ok (d', shared_data').
Proof.
  unfold call. destruct episodes as [|first rest]; simpl; [done|].
  destruct (for_each _ _ _) as [[d' sd']|] eqn:Hrun; simpl; [|done].
  intros [= <- <-]. by exists first, d'.
Qed.

(** The column found under [column] splits the columns into those visited
    before it and those visited after it. *)
Lemma dict_split column v d :
  dict_wf d -> dict_get column d = Some v ->
  exists pre post,
    d = pre ++ (column, v) :: post
    /\ (column ∉ pre.*1) /\ (column ∉ post.*1).
Proof.
  intros Hwf Hget. apply dict_get_elem_of in Hget.
  apply list_elem_of_split in Hget as (pre & post & ->).
  exists pre, post. split; [done|].
  unfold dict_wf, dict_keys in Hwf. rewrite fmap_app, fmap_cons in Hwf.
  apply NoDup_app in Hwf as (_ & Hpre & Hpost). cbn [fst snd] in *.
  apply NoDup_cons in Hpost as [Hpost _]. split; [|done].
  intros Hin. apply (Hpre _ Hin). by left.
Qed.

(** Where the loop stands when it reaches [column]: the columns before it
    are done, the entry of [column] is still the one of the call, and "obs"
    has or has not been visited. *)
Lemma call_reaches rl_module d episodes shared_data d' shared_data' column v :
  dict_wf d -> dict_get column d = Some v ->
  (files_under_default_policy rl_module episodes = true ->
   column ≠ KStr DEFAULT_POLICY_ID) ->
  call batch DEFAULT_POLICY_ID rl_module (VDict d) episodes shared_data = Ok (VDict d', shared_data') ->
  exists first pre post st1 st2,
    head episodes = Some first
    /\ d = pre ++ (column, v) :: post
    /\ (column ∉ pre.*1) /\ (column ∉ post.*1)
    /\ for_each (process_column batch DEFAULT_POLICY_ID rl_module (is_MultiAgentEpisode first)) pre
         (d, shared_data) = Ok st1
    /\ dict_wf st1.1
    /\ dict_get column st1.1 = Some v
    /\ process_column batch DEFAULT_POLICY_ID rl_module (is_MultiAgentEpisode first) st1 (column, v)
       = Ok st2
    /\ for_each (process_column batch DEFAULT_POLICY_ID rl_module (is_MultiAgentEpisode first)) post
         st2 = Ok (d', shared_data').
Proof.
  intros Hwf Hget Hdp (first & d2 & Hfirst & [= <-] & Hrun)%call_inv.
  destruct (dict_split column v d Hwf Hget) as (pre & post & Hd & Hpre & Hpost).
  rewrite Hd in Hrun at 1.
  apply for_each_split in Hrun as (st1 & st2 & Hrun1 & Hstep & Hrun2).
  exists first, pre, post, st1, st2. repeat (split; [done|]).
  split; [by apply (columns_wf _ _ _ _ _ Hrun1)|].
  split; [|done]. rewrite <- Hget.
  apply (columns_frame _ _ _ _ _ _ Hrun1 Hpre).
  intros Hm Hs. apply Hdp. unfold files_under_default_policy.
  rewrite Hm, Hfirst. by destruct first.
Qed.

(** With a [MultiAgentRLModule] and single-agent episodes, what is filed
    under [DEFAULT_POLICY_ID] stays there: later columns are added to that
    dictionary, none replaces it. *)
Lemma columns_keep_filed rl_module todo st st' (P : dict -> Prop) :
  is_MultiAgentRLModule rl_module = true ->
  (forall c' x pd, c' ∈ todo.*1 -> P pd -> P (dict_set c' x pd)) ->
  for_each (process_column batch DEFAULT_POLICY_ID rl_module false) todo st = Ok st' ->
  dict_wf st.1 ->
  (exists pd, dict_get (KStr DEFAULT_POLICY_ID) st.1 = Some (VDict pd) /\ P pd) ->
  exists pd, dict_get (KStr DEFAULT_POLICY_ID) st'.1 = Some (VDict pd) /\ P pd.
Proof.
  intros Hm HP Hrun Hwf Hfiled.
  cut (dict_wf st'.1 /\
       exists pd, dict_get (KStr DEFAULT_POLICY_ID) st'.1 = Some (VDict pd)
                  /\ P pd); [by intros [_ ?]|].
  revert Hrun.
  apply (for_each_invariant _
           (λ s, dict_wf s.1 /\
                 exists pd, dict_get (KStr DEFAULT_POLICY_ID) s.1
                            = Some (VDict pd) /\ P pd)); [|done].
  intros [d sd] [c' v] [d2 sd2] Hin [Hw (pd & Hpd & HPpd)] Hstep. cbn [fst snd] in *.
  split; [by eapply process_column_wf|].
  apply process_column_inv in Hstep
    as [_ [new_data [[-> Hcase]|(_ & _ & Hmove)]]].
  - destruct Hcase as [?|[Hl|?]]; [done| |congruence].
    destruct (decide (c' = KStr DEFAULT_POLICY_ID)) as [->|Hne].
    + by rewrite Hpd in Hl.
    + exists pd. by rewrite dict_get_set_ne.
  - apply move_to_default_policy_inv in Hmove
      as (Hne & _ & popped & pd' & _ & Hbefore & Hafter);
      [|by apply dict_wf_set].
    rewrite dict_get_set_ne in Hbefore by done. rewrite Hpd in Hbefore.
    destruct Hbefore as [[= <-]|[? _]]; [|done].
    exists (dict_set c' popped pd). split; [done|]. apply HP; [|done].
    by apply (list_elem_of_fmap_2 fst _ (c', v)).
Qed.

(** The column of [DEFAULT_POLICY_ID] itself cannot be moved under
    [DEFAULT_POLICY_ID]: with a [MultiAgentRLModule] and single-agent
    episodes, a call whose data has a dictionary under that key raises. *)
Lemma call_default_policy_column_raises rl_module d episodes shared_data v r :
  dict_wf d ->
  is_MultiAgentRLModule rl_module = true ->
  head episodes = Some SingleAgentEpisode ->
  dict_get (KStr DEFAULT_POLICY_ID) d = Some (VDict v) ->
  call batch DEFAULT_POLICY_ID rl_module (VDict d) episodes shared_data ≠ Ok r.
Proof.
  intros Hwf Hm Hfirst Hget Hcall. destruct r as [r sd'].
  apply call_inv in Hcall as (first & d' & Hfirst' & -> & Hrun).
  rewrite Hfirst in Hfirst'. injection Hfirst' as <-. simpl in Hrun.
  destruct (dict_split _ _ d Hwf Hget) as (pre & post & Hd & Hpre & _).
  rewrite Hd in Hrun at 1.
  apply for_each_split in Hrun as ([d1 sd1] & [d2 sd2] & Hrun1 & Hstep & _).
  pose proof (columns_wf _ _ _ _ _ Hrun1 Hwf) as Hwf1.
  destruct (columns_keep_filed rl_module pre _ _ (λ _, True) Hm
              ltac:(done) Hrun1 Hwf ltac:(by exists v))
    as (pd & Hpd & _).
  cbn [fst snd] in *.
  apply process_column_inv in Hstep
    as [_ [new_data [[_ Hcase]|(_ & _ & Hmove)]]].
  - rewrite Hpd in Hcase. simpl in Hcase.
    destruct Hcase as [?|[?|?]]; congruence.
  - apply move_to_default_policy_inv in Hmove as (Hne & _);
      [done | by apply dict_wf_set].
Qed.

(** A per-episode mapping under [column], single-agent episodes: the items
    of all episodes are concatenated in key order and batched, or kept as a
    list for "infos"; the result replaces the column, or is filed under
    [DEFAULT_POLICY_ID] for a [MultiAgentRLModule]. *)
Lemma call_episode_column rl_module d episodes shared_data column eps d'
    shared_data' :
  dict_wf d ->
  head episodes = Some SingleAgentEpisode ->
  dict_get column d = Some (VDict (episodes_dict eps)) ->
  NoDup eps.*1 ->
  call batch DEFAULT_POLICY_ID rl_module (VDict d) episodes shared_data = Ok (VDict d', shared_data') ->
  exists new_data,
    (if decide (column = KStr SampleBatch.INFOS)
     then Ok (VList (concat_items eps))
     else batch (concat_items eps)) = Ok new_data
    /\ if is_MultiAgentRLModule rl_module
       then exists policy_data,
              dict_get (KStr DEFAULT_POLICY_ID) d' = Some (VDict policy_data)
              /\ dict_get column policy_data = Some new_data
       else dict_get column d' = Some new_data.
Proof.
  intros Hwf Hfirst Hget Hnd Hcall.
  assert (files_under_default_policy rl_module episodes = true ->
          column ≠ KStr DEFAULT_POLICY_ID) as Hdp.
  { unfold files_under_default_policy. rewrite Hfirst.
    destruct (is_MultiAgentRLModule rl_module) eqn:Hm; [|done].
    intros _ ->. by eapply call_default_policy_column_raises. }
  destruct (call_reaches _ _ _ _ _ _ _ _ Hwf Hget Hdp Hcall)
    as (first & pre & post & [d1 sd1] & [d2 sd2] & Hfirst' & Hd & Hpre & Hpost
        & Hrun1 & Hwf1 & Hget1 & Hstep & Hrun2).
  rewrite Hfirst in Hfirst'. injection Hfirst' as <-. cbn [fst snd] in *.
  destruct (module_column rl_module column) eqn:Hmc.
  { by rewrite process_column_assert in Hstep. }
  rewrite (process_column_single_agent _ _ _ _ _ _ Hget1) in Hstep by done.
  rewrite batch_episodes_eq in Hstep by done.
  destruct (if decide (column = KStr SampleBatch.INFOS) then _ else _)
    as [new_data|]; simpl in Hstep; [|done].
  exists new_data. split; [done|].
  destruct (is_MultiAgentRLModule rl_module) eqn:Hm; simpl in Hstep.
  - destruct (move_to_default_policy _ _ _) as [d3|] eqn:Hmove;
      simpl in Hstep; [|done].
    assert (d2 = d3) as ->.
    { destruct (decide (column = KStr SampleBatch.OBS));
        [destruct sd1|]; congruence. }
    apply move_to_default_policy_inv in Hmove
      as (Hne & Hwf3 & popped & pd & Hpopped & _ & Hafter);
      [|by apply dict_wf_set].
    rewrite dict_get_set_eq in Hpopped. injection Hpopped as <-.
    apply (columns_keep_filed rl_module post (d3, sd2) (d', shared_data')
             (λ pd, dict_get column pd = Some new_data) Hm); try done.
    + intros c' x pd' Hc' Hpd'. rewrite dict_get_set_ne; [done|]. by intros ->.
    + exists (dict_set column new_data pd). split; [done|].
      apply dict_get_set_eq.
  - assert (d2 = dict_set column new_data d1) as ->.
    { destruct (decide (column = KStr SampleBatch.OBS));
        [destruct sd1|]; congruence. }
    pose proof (columns_frame _ _ _ _ _ column Hrun2 Hpost) as Hframe.
    cbn [fst] in Hframe. rewrite Hframe by congruence.
    apply dict_get_set_eq.
Qed.

(** The call returns on single-agent data it can reshape: with a plain
    module, single-agent episodes and a [shared_data] dictionary, every
    column being a list or a per-episode mapping that [batch] accepts. *)
Lemma columns_single_agent_return todo data sd :
  NoDup todo.*1 ->
  Forall (reshapable batch) todo ->
  (forall c v, (c, v) ∈ todo -> dict_get c data = Some v) ->
  exists data' sd',
    for_each (process_column batch DEFAULT_POLICY_ID RLModule false) todo
      (data, Some sd) = Ok (data', Some sd').
Proof.
  revert data sd.
  induction todo as [|[c v] todo IH]; intros data sd Hnd Hall Hlive.
  { by exists data, sd. }
  rewrite fmap_cons in Hnd. apply NoDup_cons in Hnd as [Hc Hnd].
  apply Forall_cons in Hall as [Hcv Hall].
  assert (module_column RLModule c = false) as Hmc by done.
  assert (dict_get c data = Some v) as Hget by (apply Hlive; by left).
  assert (exists new_data sd1,
            process_column batch DEFAULT_POLICY_ID RLModule false
              (data, Some sd) (c, v)
            = Ok (dict_set c new_data data, Some sd1)) as (new_data & sd1 & Hstep).
  { destruct Hcv as [(items & b & Hv & Hb)|(eps & Hv & Hnd' & Hb)];
      cbn [fst snd] in *; subst v.
    - exists b, sd. rewrite (process_column_list _ _ _ _ _ _ _ Hget Hmc).
      by rewrite Hb.
    - rewrite (process_column_single_agent _ _ _ _ _ _ Hget eq_refl Hmc).
      rewrite batch_episodes_eq by done. cbn [is_MultiAgentRLModule].
      destruct (decide (c = KStr SampleBatch.INFOS)) as [->|Hne].
      + by exists (VList (concat_items eps)), sd.
      + destruct Hb as [?|[b Hb]]; [done|]. rewrite Hb. simpl.
        destruct (decide (c = KStr SampleBatch.OBS)); eauto. }
  destruct (IH (dict_set c new_data data) sd1 Hnd Hall) as (data' & sd' & Hrun).
  { intros c' v' Hin. rewrite dict_get_set_ne; [apply Hlive; by right|].
    intros ->. apply Hc. by apply (list_elem_of_fmap_2 fst _ (c, v')). }
  exists data', sd'. cbn [for_each]. rewrite Hstep. exact Hrun.
Qed.

(** X9. With a plain module, single-agent episodes and a [shared_data]
    dictionary, the call returns on every well-formed data whose columns
    are lists or per-episode mappings that [batch] accepts. *)
Lemma call_single_agent_returns d rest sd :
  dict_wf d ->
  Forall (reshapable batch) d ->
  exists d' sd',
    call batch DEFAULT_POLICY_ID RLModule (VDict d)
      (SingleAgentEpisode :: rest) (Some sd)
    = Ok (VDict d', Some sd').
Proof.
  intros Hwf Hall.
  destruct (columns_single_agent_return d d sd Hwf Hall) as (d' & sd' & Hrun).
  { intros c v Hin. by apply dict_get_entry. }
  exists d', sd'. rewrite call_eq. cbn [is_MultiAgentEpisode].
  by rewrite Hrun.
Qed.

(* ===================================================================== *)
(** * The connector: the properties of the specification *)
(* ===================================================================== *)

(** C1, as amended. With single-agent episodes, every column other than
    "infos" that holds a mapping from episode-id keys to lists of items ends
    up as the batch of the concatenation of all these lists, episodes in
    the order of the mapping's keys and items in list order: in place of the
    column, or under [DEFAULT_POLICY_ID] when the module is a
    [MultiAgentRLModule]. *)
Theorem call_batches_episode_column rl_module d episodes shared_data column
    eps d' shared_data' :
  dict_wf d ->
  head episodes = Some SingleAgentEpisode ->
  dict_get column d = Some (VDict (episodes_dict eps)) ->
  NoDup eps.*1 ->
  column ≠ KStr SampleBatch.INFOS ->
  call batch DEFAULT_POLICY_ID rl_module (VDict d) episodes shared_data
  = Ok (VDict d', shared_data') ->
  exists b,
    batch (concat_items eps) = Ok b
    /\ if is_MultiAgentRLModule rl_module
       then exists policy_data,
              dict_get (KStr DEFAULT_POLICY_ID) d' = Some (VDict policy_data)
              /\ dict_get column policy_data = Some b
       else dict_get column d' = Some b.
Proof.
  intros Hwf Hfirst Hget Hnd Hinfos Hcall.
  destruct (call_episode_column _ _ _ _ _ _ _ _ Hwf Hfirst Hget Hnd Hcall)
    as (b & Hb & Hplace).
  rewrite decide_False in Hb by done. by exists b.
Qed.

(** X3. The "infos" column of single-agent episodes is the plain
    concatenated list, whatever [batch] does. *)
Lemma call_keeps_infos_list rl_module d episodes shared_data eps d'
    shared_data' :
  dict_wf d ->
  head episodes = Some SingleAgentEpisode ->
  dict_get (KStr SampleBatch.INFOS) d = Some (VDict (episodes_dict eps)) ->
  NoDup eps.*1 ->
  call batch DEFAULT_POLICY_ID rl_module (VDict d) episodes shared_data
  = Ok (VDict d', shared_data') ->
  if is_MultiAgentRLModule rl_module
  then exists policy_data,
         dict_get (KStr DEFAULT_POLICY_ID) d' = Some (VDict policy_data)
         /\ dict_get (KStr SampleBatch.INFOS) policy_data
            = Some (VList (concat_items eps))
  else dict_get (KStr SampleBatch.INFOS) d' = Some (VList (concat_items eps)).
Proof.
  intros Hwf Hfirst Hget Hnd Hcall.
  destruct (call_episode_column _ _ _ _ _ _ _ _ Hwf Hfirst Hget Hnd Hcall)
    as (b & Hb & Hplace).
  rewrite decide_True in Hb by done. by injection Hb as <-.
Qed.

(** The "infos" list of a module is not rebound by the loop over the
    module's columns. *)
Lemma batch_module_data_keeps_infos module_data module_data' :
  batch_module_data batch (VDict module_data) = Ok module_data' ->
  dict_get (KStr SampleBatch.INFOS) module_data'
  = dict_get (KStr SampleBatch.INFOS) module_data.
Proof.
  simpl.
  apply (for_each_invariant _
           (λ md, dict_get (KStr SampleBatch.INFOS) md
                  = dict_get (KStr SampleBatch.INFOS) module_data)); [|done].
  intros md [col col_data] md' _ Hmd. unfold batch_module_column.
  destruct col_data; try by intros [= <-].
  destruct (decide (col = KStr SampleBatch.INFOS)); [by intros [= <-]|].
  destruct (batch items); simpl; [|done]. intros [= <-].
  by rewrite dict_get_set_ne.
Qed.

(** C3. "infos" is to be the one column that is never batched. The
    single-agent case ([call_keeps_infos_list]) and the module case
    ([batch_module_data_keeps_infos]) leave it a list; the simple case does
    not: a list directly under "infos" is handed to [batch] like any other
    list, and what [batch] returns replaces it. *)
Theorem call_batches_infos_list items first rest shared_data :
  call batch DEFAULT_POLICY_ID RLModule
    (VDict [(KStr SampleBatch.INFOS, VList items)]) (first :: rest) shared_data
  = (b ← batch items;
     Ok (VDict [(KStr SampleBatch.INFOS, b)], shared_data)).
Proof.
  unfold call. simpl. destruct (batch items); done.
Qed.

(** C7, as amended. A column that holds a list directly, and is neither a
    module's column nor, when a [MultiAgentRLModule] is given single-agent
    episodes, the column of [DEFAULT_POLICY_ID], ends up as the batch of
    exactly that list. Under [DEFAULT_POLICY_ID] the call files the
    per-episode columns in that case. *)
Theorem call_batches_list_column rl_module d episodes shared_data column
    items d' shared_data' :
  dict_wf d ->
  dict_get column d = Some (VList items) ->
  module_column rl_module column = false ->
  (files_under_default_policy rl_module episodes = true ->
   column ≠ KStr DEFAULT_POLICY_ID) ->
  call batch DEFAULT_POLICY_ID rl_module (VDict d) episodes shared_data
  = Ok (VDict d', shared_data') ->
  exists b, batch items = Ok b /\ dict_get column d' = Some b.
Proof.
  intros Hwf Hget Hmc Hdp Hcall.
  destruct (call_reaches _ _ _ _ _ _ _ _ Hwf Hget Hdp Hcall)
    as (first & pre & post & [d1 sd1] & [d2 sd2] & Hfirst & Hd & Hpre & Hpost
        & Hrun1 & Hwf1 & Hget1 & Hstep & Hrun2).
  cbn [fst snd] in *.
  rewrite (process_column_list _ _ _ _ _ _ _ Hget1 Hmc) in Hstep.
  destruct (batch items) as [b|]; simpl in Hstep; [|done].
  injection Hstep as <- <-. exists b. split; [done|].
  pose proof (columns_frame _ _ _ _ _ column Hrun2 Hpost) as Hframe.
  cbn [fst] in Hframe. rewrite Hframe; [apply dict_get_set_eq|].
  intros Hm Hs. apply Hdp. unfold files_under_default_policy.
  rewrite Hm, Hfirst. by destruct first.
Qed.

(** C9. With multi-agent episodes, a column that is neither a list nor a
    module's column makes the call raise: the call does not return, and it
    raises [NotImplementedError] whenever the columns before that one went
    through. *)
Theorem call_rejects_unmapped_column rl_module pre column v post episodes
    shared_data :
  dict_wf (pre ++ (column, v) :: post) ->
  head episodes = Some MultiAgentEpisode ->
  is_list v = false ->
  module_column rl_module column = false ->
  (exists e,
     call batch DEFAULT_POLICY_ID rl_module (VDict (pre ++ (column, v) :: post))
       episodes shared_data = Raise e)
  /\ (forall st,
        for_each (process_column batch DEFAULT_POLICY_ID rl_module true) pre
          (pre ++ (column, v) :: post, shared_data) = Ok st ->
        call batch DEFAULT_POLICY_ID rl_module
          (VDict (pre ++ (column, v) :: post)) episodes shared_data
        = Raise NotImplementedError).
Proof.
  intros Hwf Hfirst Hl Hmc.
  destruct episodes as [|first rest]; [done|]. injection Hfirst as ->.
  set (d := pre ++ (column, v) :: post) in *.
  assert (forall st,
            for_each (process_column batch DEFAULT_POLICY_ID rl_module true)
              pre (d, shared_data) = Ok st ->
            call batch DEFAULT_POLICY_ID rl_module (VDict d)
              (MultiAgentEpisode :: rest) shared_data
            = Raise NotImplementedError) as Hreached.
  { intros [d1 sd1] Hrun1. rewrite call_eq.
    change (is_MultiAgentEpisode MultiAgentEpisode) with true.
    unfold d at 1. rewrite for_each_app, Hrun1.
    cbn [mbind result_bind for_each].
    assert (column ∉ pre.*1) as Hpre.
    { unfold dict_wf, dict_keys, d in Hwf. rewrite fmap_app, fmap_cons in Hwf.
      apply NoDup_app in Hwf as (_ & Hp & _). intros Hin.
      apply (Hp _ Hin). by left. }
    pose proof (columns_frame _ _ _ _ _ column Hrun1 Hpre ltac:(done)) as Hget.
    cbn [fst] in Hget.
    assert (dict_get column d = Some v) as Hd.
    { apply dict_get_entry; [done|]. unfold d.
      apply elem_of_app. right. by left. }
    rewrite Hd in Hget.
    by rewrite (process_column_unmapped _ _ _ _ _ _ Hget Hl Hmc). }
  split; [|done].
  destruct (for_each (process_column batch DEFAULT_POLICY_ID rl_module true)
              pre (d, shared_data)) as [st|e] eqn:Hrun1.
  - exists NotImplementedError. by apply (Hreached st).
  - exists e. rewrite call_eq.
    change (is_MultiAgentEpisode MultiAgentEpisode) with true.
    unfold d at 1. by rewrite for_each_app, Hrun1.
Qed.

(** The recorded structure lines up with the concatenated items: entry by
    entry, the id of the episode the item comes from. *)
Lemma item_episodes_zip eps :
  zip (item_episodes eps) (concat_items eps)
  = eps ≫= (λ ep, (λ item, (VStr ep.1, item)) <$> ep.2).
Proof.
  unfold item_episodes, concat_items.
  induction eps as [|[eps_id items] eps IH]; [done|].
  rewrite !bind_cons. cbn [fst snd].
  rewrite zip_with_app by apply length_replicate. rewrite IH. f_equal.
  clear IH. induction items as [|item items IH]; [done|]. simpl. by f_equal.
Qed.

(** Only "obs", only in the single-agent branch, only for a dictionary. *)
Lemma process_column_shared_data rl_module is_multi_agent data shared_data
    column copied data' shared_data' :
  process_column batch DEFAULT_POLICY_ID rl_module is_multi_agent
    (data, shared_data) (column, copied) = Ok (data', shared_data') ->
  shared_data' = shared_data
  \/ (column = KStr SampleBatch.OBS /\ is_multi_agent = false
      /\ exists eps_data,
           default copied (dict_get column data) = VDict eps_data).
Proof.
  intros Hstep.
  destruct (decide (column = KStr SampleBatch.OBS)) as [->|Hne];
    [|left; by apply process_column_inv in Hstep as [-> _]].
  revert Hstep. unfold process_column.
  set (column_data := default copied (dict_get _ data)).
  destruct (_ && _).
  { destruct is_multi_agent; [|done].
    destruct (batch_module_data batch column_data); simpl; [|done].
    intros [= <- <-]. by left. }
  destruct (is_list column_data) eqn:Hl.
  { destruct column_data; try done. destruct (batch items); simpl; [|done].
    intros [= <- <-]. by left. }
  destruct is_multi_agent; simpl; [done|].
  destruct column_data; try done. intros _. right. eauto.
Qed.

(** C10. With single-agent episodes, [shared_data] is written for the
    "obs" column only: a per-episode mapping under "obs" leaves, under
    "memorized_map_structure", the episode id of every observation item in
    the order of concatenation; without such a mapping [shared_data] is
    what it was; and an iteration on any other column returns it as it
    got it. *)
Theorem call_memorizes_obs_structure rl_module d episodes shared_data d'
    shared_data' :
  dict_wf d ->
  head episodes = Some SingleAgentEpisode ->
  DEFAULT_POLICY_ID ≠ SampleBatch.OBS ->
  call batch DEFAULT_POLICY_ID rl_module (VDict d) episodes shared_data
  = Ok (VDict d', shared_data') ->
  (forall eps,
     dict_get (KStr SampleBatch.OBS) d = Some (VDict (episodes_dict eps)) ->
     NoDup eps.*1 ->
     (exists sd,
        shared_data = Some sd
        /\ shared_data'
           = Some (dict_set (KStr "memorized_map_structure")
                     (VList (item_episodes eps)) sd))
     /\ zip (item_episodes eps) (concat_items eps)
        = eps ≫= (λ ep, (λ item, (VStr ep.1, item)) <$> ep.2))
  /\ ((forall eps_data,
         dict_get (KStr SampleBatch.OBS) d ≠ Some (VDict eps_data)) ->
      shared_data' = shared_data)
  /\ (forall is_multi_agent st column copied st',
        process_column batch DEFAULT_POLICY_ID rl_module is_multi_agent st
          (column, copied) = Ok st' ->
        column ≠ KStr SampleBatch.OBS ->
        st'.2 = st.2).
Proof.
  intros Hwf Hfirst Hdp Hcall.
  assert (files_under_default_policy rl_module episodes = true ->
          KStr SampleBatch.OBS ≠ KStr DEFAULT_POLICY_ID) as Hdp'
    by (intros _ [= ?]; congruence).
  assert (forall v,
            dict_get (KStr SampleBatch.OBS) d = Some v ->
            exists d1 sd2 d2,
              dict_get (KStr SampleBatch.OBS) d1 = Some v
              /\ process_column batch DEFAULT_POLICY_ID rl_module false
                   (d1, shared_data) (KStr SampleBatch.OBS, v)
                 = Ok (d2, sd2)
              /\ shared_data' = sd2) as Hreach.
  { intros v Hget.
    destruct (call_reaches _ _ _ _ _ _ _ _ Hwf Hget Hdp' Hcall)
      as (first & pre & post & [d1 sd1] & [d2 sd2] & Hfirst' & Hd & Hpre
          & Hpost & Hrun1 & Hwf1 & Hget1 & Hstep & Hrun2).
    rewrite Hfirst in Hfirst'. injection Hfirst' as <-.
    apply columns_shared_data in Hrun1; [|done].
    apply columns_shared_data in Hrun2; [|done].
    cbn [fst snd is_MultiAgentEpisode] in *. subst sd1.
    by exists d1, sd2, d2. }
  split; [|split].
  - intros eps Hget Hnd. split; [|apply item_episodes_zip].
    destruct (Hreach _ Hget) as (d1 & sd2 & d2 & Hget1 & Hstep & ->).
    destruct (module_column rl_module (KStr SampleBatch.OBS)) eqn:Hmc.
    { by rewrite process_column_assert in Hstep. }
    rewrite (process_column_single_agent _ _ _ _ _ _ Hget1) in Hstep by done.
    rewrite batch_episodes_eq in Hstep by done.
    destruct (if decide (_ = KStr SampleBatch.INFOS) then _ else _);
      simpl in Hstep; [|done].
    destruct (if is_MultiAgentRLModule rl_module then _ else _);
      simpl in Hstep; [|done].
    destruct shared_data as [sd|]; [|done]. injection Hstep as <- <-.
    by exists sd.
  - intros Hnodict.
    destruct (dict_get (KStr SampleBatch.OBS) d) as [v|] eqn:Hget.
    + destruct (Hreach _ eq_refl) as (d1 & sd2 & d2 & Hget1 & Hstep & ->).
      apply process_column_shared_data in Hstep
        as [->|(_ & _ & eps_data & Hlive)]; [done|].
      rewrite Hget1 in Hlive. simpl in Hlive. subst v.
      by destruct (Hnodict eps_data).
    + apply call_inv in Hcall as (first & d2 & _ & _ & Hrun).
      apply columns_shared_data in Hrun; [done|].
      by apply dict_get_None.
  - intros is_multi_agent [data sd] column copied [data2 sd2] Hstep Hne.
    by apply process_column_inv in Hstep as [-> _].
Qed.

End BatchIndividualItemsProperties.

(* ===================================================================== *)
(** * The RL module: what [setup] leaves behind *)
(* ===================================================================== *)

Ltac unfold_module :=
  unfold attr_gt_one, attr_truthy, when, scheduler_kwargs, build_encoder,
    build_af_head, build_vf_head, get_action_dist_cls, new_object, setattr,
    getattr, set_trainable, lift, raise, config_item, mbind, M_bind, mret,
    M_ret in *.

(** One step of running the module's code in a hypothesis: read an
    attribute that was written, or branch on a test of the configuration. *)
Ltac step_module H :=
  first
    [ rewrite lookup_insert_eq in H
    | rewrite lookup_insert_ne in H by done
    | rewrite lookup_empty in H
    | progress simpl in H
    | match type of H with
      | context [truthy ?v] => destruct (truthy v) as [[]|] eqn:?
      | context [gt_one ?v] => destruct (gt_one v) as [[]|] eqn:?
      | context [match ?o with Some _ => _ | None => _ end] =>
          is_var o; destruct o
      end ].

Section DQNRainbowRLModuleProperties.

Variable Scheduler : list value -> list (string * value) -> result attr.
Variable config : RLModuleConfig.
Variable framework : string.

Local Abbreviation get := (config_get (model_config_dict config)).

(** [setup] on a fresh module returns exactly when the three tests of the
    configuration have a truth value and, the noisy flag being off,
    "epsilon" is there and the call of [Scheduler] returns; the module is
    then as [after_setup] describes it. *)
Lemma setup_inv st :
  setup Scheduler config framework fresh_module = Ok (tt, st) ->
  exists distributional uses_noisy is_dueling epsilon epsilon_schedule,
    gt_one (get "num_atoms") = Ok distributional
    /\ truthy (get "noisy") = Ok uses_noisy
    /\ truthy (get "dueling") = Ok is_dueling
    /\ (uses_noisy = false ->
        model_config_dict config !! "epsilon" = Some epsilon
        /\ Scheduler [epsilon] (scheduler_kwargs framework)
           = Ok epsilon_schedule)
    /\ st = after_setup config framework distributional uses_noisy is_dueling
              epsilon_schedule.
Proof.
  unfold setup, fresh_module, after_setup, frozen. unfold_module.
  generalize (get "dueling") as vd. generalize (get "noisy") as vn.
  generalize (get "num_atoms") as va. generalize (get "v_min") as vmin.
  generalize (get "v_max") as vmax.
  generalize (model_config_dict config !! "epsilon") as eps.
  generalize (encoder_built (get_catalog config) framework) as enc.
  generalize (af_head_built (get_catalog config) framework) as af.
  generalize (vf_head_built (get_catalog config) framework) as vf.
  generalize (action_dist_cls (get_catalog config) framework) as cls.
  intros cls vf af enc eps vmax vmin va vn vd H.
  repeat first
    [ step_module H
    | match type of H with
      | context [Scheduler ?a ?k] =>
          destruct (Scheduler a k) as [?|?] eqn:?
      end ];
    try discriminate; injection H as <-;
    repeat match goal with
           | E : truthy ?v = Ok _, E' : truthy ?v = Ok _ |- _ =>
               rewrite E in E'; try discriminate; clear E'
           end;
    match goal with
    | Hd : gt_one va = Ok ?d, Hn : truthy vn = Ok ?n, Hu : truthy vd = Ok ?u
      |- _ =>
        match goal with
        | Hs : Scheduler [?e] _ = Ok ?a |- _ => exists d, n, u, e, a
        | _ => exists d, n, u, VNone, (AValue VNone)
        end
    end;
    repeat split; done.
Qed.

Lemma setup_returns distributional uses_noisy is_dueling epsilon
    epsilon_schedule :
  gt_one (get "num_atoms") = Ok distributional ->
  truthy (get "noisy") = Ok uses_noisy ->
  truthy (get "dueling") = Ok is_dueling ->
  (uses_noisy = false ->
   model_config_dict config !! "epsilon" = Some epsilon
   /\ Scheduler [epsilon] (scheduler_kwargs framework) = Ok epsilon_schedule) ->
  setup Scheduler config framework fresh_module
  = Ok (tt, after_setup config framework distributional uses_noisy is_dueling
              epsilon_schedule).
Proof.
  unfold setup, fresh_module, after_setup, frozen. unfold_module.
  generalize (get "dueling") as vd. generalize (get "noisy") as vn.
  generalize (get "num_atoms") as va. generalize (get "v_min") as vmin.
  generalize (get "v_max") as vmax.
  generalize (model_config_dict config !! "epsilon") as eps.
  generalize (encoder_built (get_catalog config) framework) as enc.
  generalize (af_head_built (get_catalog config) framework) as af.
  generalize (vf_head_built (get_catalog config) framework) as vf.
  generalize (action_dist_cls (get_catalog config) framework) as cls.
  intros cls vf af enc eps vmax vmin va vn vd Hd Hn Hu He.
  destruct distributional, uses_noisy, is_dueling;
    try (destruct (He eq_refl) as [-> Hs]);
    repeat first
      [ rewrite lookup_insert_eq
      | rewrite lookup_insert_ne by done
      | rewrite Hd | rewrite Hn | rewrite Hu | rewrite Hs
      | progress simpl ];
    reflexivity.
Qed.

(** The attributes of the module after [setup]. *)
Lemma after_setup_attrs distributional uses_noisy is_dueling epsilon_schedule :
  let st := after_setup config framework distributional uses_noisy is_dueling
              epsilon_schedule in
  self st !! "num_atoms" = Some (AValue (get "num_atoms"))
  /\ self st !! "action_dist_cls"
     = Some (AClass (action_dist_cls (get_catalog config) framework))
  /\ self st !! "epsilon_schedule"
     = (if uses_noisy then None else Some epsilon_schedule)
  /\ self st !! "encoder" = Some (ARef 0)
  /\ self st !! "target_encoder" = Some (ARef 1)
  /\ self st !! "af" = Some (ARef 2)
  /\ self st !! "vf" = (if is_dueling then Some (ARef 3) else None)
  /\ self st !! "af_target" = Some (ARef (if is_dueling then 4 else 3)%nat)
  /\ self st !! "vf_target" = (if is_dueling then Some (ARef 5) else None).
Proof.
  unfold after_setup. cbn [self].
  destruct distributional, uses_noisy, is_dueling;
    repeat split;
    repeat first [ rewrite lookup_insert_eq
                 | rewrite lookup_insert_ne by done
                 | rewrite lookup_empty ];
    reflexivity.
Qed.

(** The networks of the module after [setup]: the main ones as the catalog
    built them, the target ones frozen. *)
Lemma after_setup_networks distributional uses_noisy is_dueling epsilon_schedule :
  let st := after_setup config framework distributional uses_noisy is_dueling
              epsilon_schedule in
  let catalog := get_catalog config in
  network_at st "encoder" = Some (encoder_built catalog framework)
  /\ network_at st "target_encoder"
     = Some (frozen (encoder_built catalog framework))
  /\ network_at st "af" = Some (af_head_built catalog framework)
  /\ network_at st "af_target" = Some (frozen (af_head_built catalog framework))
  /\ network_at st "vf"
     = (if is_dueling then Some (vf_head_built catalog framework) else None)
  /\ network_at st "vf_target"
     = (if is_dueling then Some (frozen (vf_head_built catalog framework))
        else None).
Proof.
  intros st catalog. subst st catalog. unfold network_at.
  destruct (after_setup_attrs distributional uses_noisy is_dueling epsilon_schedule)
    as (_ & _ & _ & -> & -> & -> & -> & -> & ->).
  unfold after_setup. cbn [objects]. by destruct is_dueling.
Qed.

(** The column names [SampleBatch.ACTIONS], [SampleBatch.NEXT_OBS] and
    [SampleBatch.T] of the spec getters. *)
Variables ACTIONS NEXT_OBS T : string.

Lemma flag_set_iff name b :
  truthy (get name) = Ok b -> flag_set config name <-> b = true.
Proof. unfold flag_set. intros ->. split; [by intros [= ->] | by intros ->]. Qed.

(** The methods of the class other than [setup] return and leave the module
    as it is. *)
Lemma invoke_returns distributional uses_noisy is_dueling epsilon_schedule m :
  gt_one (get "num_atoms") = Ok distributional ->
  let st := after_setup config framework distributional uses_noisy is_dueling
              epsilon_schedule in
  exists r, invoke ACTIONS NEXT_OBS T m st = Ok (r, st).
Proof.
  intros Hd st.
  destruct (after_setup_attrs distributional uses_noisy is_dueling epsilon_schedule)
    as (Hatoms & Hcls & _).
  fold st in Hatoms, Hcls. clearbody st.
  destruct m; unfold invoke, get_exploration_action_dist_cls,
    get_initial_state, input_specs_exploration, input_specs_inference,
    input_specs_train, output_specs_exploration, output_specs_inference,
    output_specs_train; unfold_module; simpl;
    rewrite ?Hatoms, ?Hcls; simpl; rewrite ?Hd; simpl; eauto.
Qed.

Lemma invoke_all_returns distributional uses_noisy is_dueling epsilon_schedule ms :
  gt_one (get "num_atoms") = Ok distributional ->
  let st := after_setup config framework distributional uses_noisy is_dueling
              epsilon_schedule in
  exists rs, invoke_all ACTIONS NEXT_OBS T ms st = Ok (rs, st).
Proof.
  intros Hd st.
  pose proof (λ m, invoke_returns distributional uses_noisy is_dueling
                     epsilon_schedule m Hd) as Hinvoke.
  fold st in Hinvoke. clearbody st.
  induction ms as [|m ms [rs IH]]; simpl.
  - by exists [].
  - destruct (Hinvoke m) as [r Hr]. exists (r :: rs).
    unfold mbind, M_bind at 1. rewrite Hr.
    unfold mbind, M_bind at 1. by rewrite IH.
Qed.

(** C2. The training output spec holds "atoms", "qf_logits" and
    "qf_target_next_probs" exactly when [num_atoms > 1], and "qf_preds" and
    "qf_target_next_preds" for every configuration. *)
Theorem output_specs_train_keys st :
  setup Scheduler config framework fresh_module = Ok (tt, st) ->
  exists keys,
    output_specs_train st = Ok (keys, st)
    /\ (ATOMS ∈ keys <-> gt_one (get "num_atoms") = Ok true)
    /\ (QF_LOGITS ∈ keys <-> gt_one (get "num_atoms") = Ok true)
    /\ (QF_TARGET_NEXT_PROBS ∈ keys <-> gt_one (get "num_atoms") = Ok true)
    /\ QF_PREDS ∈ keys
    /\ QF_TARGET_NEXT_PREDS ∈ keys
    /\ (forall n, get "num_atoms" = VInt n ->
                  gt_one (get "num_atoms") = Ok true <-> 1 < n).
Proof.
  intros (dist & noisy & duel & eps & sched & Hd & _ & _ & _ & ->)%setup_inv.
  destruct (after_setup_attrs dist noisy duel sched) as (Hatoms & _).
  exists ([QF_PREDS; QF_TARGET_NEXT_PREDS]
          ++ (if dist then [ATOMS; QF_LOGITS; QF_TARGET_NEXT_PROBS] else [])).
  split.
  { unfold output_specs_train. unfold_module. rewrite Hatoms. simpl.
    by rewrite Hd. }
  rewrite Hd.
  assert (forall n, get "num_atoms" = VInt n ->
                    Ok dist = Ok true <-> 1 < n) as Hint.
  { intros n Hn. rewrite Hn in Hd. simpl in Hd. injection Hd as <-.
    rewrite <- Z.ltb_lt. split; [by intros [= ->] | by intros ->]. }
  unfold ATOMS, QF_LOGITS, QF_TARGET_NEXT_PROBS, QF_PREDS,
    QF_TARGET_NEXT_PREDS.
  destruct dist; simpl; rewrite ?elem_of_cons, ?elem_of_nil;
    repeat split; try done; auto; try apply Hint;
    intuition discriminate.
Qed.

(** C4. [setup] builds the value head and its target exactly when the
    dueling flag is set; the advantage head and its target always. On every
    configuration on which [setup] can return (the hypotheses; [setup_inv]
    shows a run that returns meets them) it does return, with [vf] and
    [vf_target] set to a value head and its frozen copy when the flag is
    set, not set at all when it is not, and [af] and [af_target] set to an
    advantage head and its frozen copy. *)
Theorem setup_value_heads_iff_dueling distributional uses_noisy is_dueling
    epsilon epsilon_schedule :
  gt_one (get "num_atoms") = Ok distributional ->
  truthy (get "noisy") = Ok uses_noisy ->
  truthy (get "dueling") = Ok is_dueling ->
  (uses_noisy = false ->
   model_config_dict config !! "epsilon" = Some epsilon
   /\ Scheduler [epsilon] (scheduler_kwargs framework) = Ok epsilon_schedule) ->
  let catalog := get_catalog config in
  exists st,
    setup Scheduler config framework fresh_module = Ok (tt, st)
    /\ (is_Some (self st !! "vf") <-> flag_set config "dueling")
    /\ (is_Some (self st !! "vf_target") <-> flag_set config "dueling")
    /\ (flag_set config "dueling" ->
        network_at st "vf" = Some (vf_head_built catalog framework)
        /\ network_at st "vf_target"
           = Some (frozen (vf_head_built catalog framework)))
    /\ (¬ flag_set config "dueling" ->
        self st !! "vf" = None /\ self st !! "vf_target" = None)
    /\ network_at st "af" = Some (af_head_built catalog framework)
    /\ network_at st "af_target"
       = Some (frozen (af_head_built catalog framework)).
Proof.
  intros Hd Hn Hu He catalog.
  exists (after_setup config framework distributional uses_noisy is_dueling
            epsilon_schedule).
  split; [by eapply setup_returns|].
  destruct (after_setup_attrs distributional uses_noisy is_dueling
              epsilon_schedule)
    as (_ & _ & _ & _ & _ & _ & Hvf & _ & Hvft).
  destruct (after_setup_networks distributional uses_noisy is_dueling
              epsilon_schedule)
    as (_ & _ & Haf & Haft & Hnvf & Hnvft).
  rewrite Hvf, Hvft, Hnvf, Hnvft, (flag_set_iff _ _ Hu).
  destruct is_dueling; repeat split; try done; try by intros [? ?].
  all: try by eauto.
  all: by intros [].
Qed.

(** C5. [setup] builds a target copy of each component of the main
    network: of the encoder and of the advantage head always, of the value
    head exactly when there is one. A copy is a network of its own, built
    like the component. *)
Theorem setup_builds_target_copies st :
  setup Scheduler config framework fresh_module = Ok (tt, st) ->
  let catalog := get_catalog config in
  (network_at st "encoder" = Some (encoder_built catalog framework)
   /\ network_at st "target_encoder"
      = Some (frozen (encoder_built catalog framework))
   /\ self st !! "target_encoder" ≠ self st !! "encoder")
  /\ (network_at st "af" = Some (af_head_built catalog framework)
      /\ network_at st "af_target"
         = Some (frozen (af_head_built catalog framework))
      /\ self st !! "af_target" ≠ self st !! "af")
  /\ (is_Some (self st !! "vf_target") <-> is_Some (self st !! "vf"))
  /\ (is_Some (self st !! "vf") <-> flag_set config "dueling")
  /\ (forall m, network_at st "vf" = Some m ->
                network_at st "vf_target" = Some (frozen m)
                /\ self st !! "vf_target" ≠ self st !! "vf").
Proof.
  intros (dist & noisy & duel & eps & sched & _ & _ & Hu & _ & ->)%setup_inv catalog.
  destruct (after_setup_attrs dist noisy duel sched)
    as (_ & _ & _ & -> & -> & -> & -> & -> & ->).
  destruct (after_setup_networks dist noisy duel sched)
    as (-> & -> & -> & -> & -> & ->).
  rewrite (flag_set_iff _ _ Hu).
  destruct duel; repeat split; try done; try by intros [? ?].
  all: try by eauto.
  all: congruence.
Qed.

(** When [setup] returns, the epsilon scheduler is there exactly when the
    noisy flag is not set, and is what the call of [Scheduler] on the
    "epsilon" entry returned. *)
Lemma setup_epsilon_schedule_iff_not_noisy st :
  setup Scheduler config framework fresh_module = Ok (tt, st) ->
  (is_Some (self st !! "epsilon_schedule") <-> ¬ flag_set config "noisy")
  /\ (forall a, self st !! "epsilon_schedule" = Some a ->
        exists epsilon,
          model_config_dict config !! "epsilon" = Some epsilon
          /\ Scheduler [epsilon] (scheduler_kwargs framework) = Ok a).
Proof.
  intros (dist & noisy & duel & eps & sched & _ & Hn & _ & He & ->)%setup_inv.
  destruct (after_setup_attrs dist noisy duel sched) as (_ & _ & -> & _).
  rewrite (flag_set_iff _ _ Hn).
  destruct noisy; split.
  - split; [by intros [? ?] | intros H; by destruct H].
  - done.
  - split; [done | intros _; by eexists].
  - intros a [= <-]. exists eps. by apply He.
Qed.



(** C8. After [setup] the target networks are not trainable, and they stay
    so: every other method of the class returns and leaves the module, and
    with it the [trainable] attributes, as [setup] left it. *)
Theorem target_networks_stay_frozen st ms :
  setup Scheduler config framework fresh_module = Ok (tt, st) ->
  let catalog := get_catalog config in
  (exists rs, invoke_all ACTIONS NEXT_OBS T ms st = Ok (rs, st))
  /\ network_at st "target_encoder"
     = Some (frozen (encoder_built catalog framework))
  /\ network_at st "af_target" = Some (frozen (af_head_built catalog framework))
  /\ (flag_set config "dueling" ->
      network_at st "vf_target"
      = Some (frozen (vf_head_built catalog framework)))
  /\ (forall name m,
        name ∈ target_names -> network_at st name = Some m ->
        trainable m = false).
Proof.
  intros (dist & noisy & duel & eps & sched & Hd & _ & Hu & _ & ->)%setup_inv catalog.
  destruct (after_setup_networks dist noisy duel sched)
    as (_ & Hte & _ & Haft & _ & Hvft).
  split; [by apply invoke_all_returns|].
  rewrite (flag_set_iff _ _ Hu). repeat split; try done.
  - intros ->. by rewrite Hvft.
  - unfold target_names. intros name m Hin.
    rewrite !elem_of_cons, elem_of_nil in Hin.
    destruct Hin as [->|[->|[->|[]]]].
    + rewrite Hte. by intros [= <-].
    + rewrite Haft. by intros [= <-].
    + rewrite Hvft. destruct duel; [by intros [= <-] | done].
Qed.

End DQNRainbowRLModuleProperties.

(* ===================================================================== *)
(** * The properties on the sample inputs *)
(* ===================================================================== *)

(** C1 without the exception for "infos" fails: under "infos" the call
    leaves the plain concatenated list, not what [batch] makes of it. *)
Lemma infos_column_is_not_batched :
  dict_wf Samples.single_agent_data
  /\ dict_get (KStr "infos") Samples.single_agent_data
     = Some (VDict (episodes_dict Samples.infos_episodes))
  /\ NoDup (Samples.infos_episodes.*1)
  /\ call Samples.stack Samples.default_policy RLModule
       (VDict Samples.single_agent_data) [SingleAgentEpisode] (Some [])
     = Ok (VDict Samples.single_agent_batched, Some Samples.memorized)
  /\ ¬ exists b,
         Samples.stack (concat_items Samples.infos_episodes) = Ok b
         /\ dict_get (KStr "infos") Samples.single_agent_batched = Some b.
Proof.
  split; [compute_done|]. split; [done|]. split; [compute_done|].
  split; [done|]. by intros (b & [= <-] & ?).
Qed.

Lemma call_batches_episode_column_witness :
  exists b,
    Samples.stack (concat_items Samples.obs_episodes) = Ok b
    /\ dict_get (KStr "obs") Samples.single_agent_batched = Some b.
Proof.
  apply (call_batches_episode_column Samples.stack Samples.default_policy
           RLModule Samples.single_agent_data [SingleAgentEpisode] (Some [])
           (KStr "obs") Samples.obs_episodes Samples.single_agent_batched
           (Some Samples.memorized)).
  - compute_done.
  - reflexivity.
  - reflexivity.
  - compute_done.
  - discriminate.
  - reflexivity.
Defined.

Lemma call_batches_list_column_witness :
  exists b,
    Samples.stack [VBool true; VBool true; VBool false] = Ok b
    /\ dict_get (KStr "loss_mask") Samples.single_agent_batched = Some b.
Proof.
  apply (call_batches_list_column Samples.stack Samples.default_policy
           RLModule Samples.single_agent_data [SingleAgentEpisode] (Some [])
           (KStr "loss_mask") _ Samples.single_agent_batched
           (Some Samples.memorized)).
  - compute_done.
  - reflexivity.
  - reflexivity.
  - discriminate.
  - reflexivity.
Defined.

Lemma call_rejects_unmapped_column_witness :
  (exists e,
     call Samples.stack Samples.default_policy (MultiAgentRLModule ["m1"])
       (VDict Samples.unmapped_data) [MultiAgentEpisode] None = Raise e)
  /\ (forall st,
        for_each
          (process_column Samples.stack Samples.default_policy
             (MultiAgentRLModule ["m1"]) true) []
          (Samples.unmapped_data, None) = Ok st ->
        call Samples.stack Samples.default_policy (MultiAgentRLModule ["m1"])
          (VDict Samples.unmapped_data) [MultiAgentEpisode] None
        = Raise NotImplementedError).
Proof.
  apply (call_rejects_unmapped_column Samples.stack Samples.default_policy
           (MultiAgentRLModule ["m1"]) [] (KStr "obs")
           (VDict [(KTuple ["e1"; "agent0"; "m1"], VList [VInt 1])]) []
           [MultiAgentEpisode] None).
  - compute_done.
  - reflexivity.
  - reflexivity.
  - reflexivity.
Defined.

Lemma call_memorizes_obs_structure_witness :
  (forall eps,
     dict_get (KStr SampleBatch.OBS) Samples.single_agent_data
     = Some (VDict (episodes_dict eps)) ->
     NoDup eps.*1 ->
     (exists sd,
        Some [] = Some sd
        /\ Some Samples.memorized
           = Some (dict_set (KStr "memorized_map_structure")
                     (VList (item_episodes eps)) sd))
     /\ zip (item_episodes eps) (concat_items eps)
        = eps ≫= (λ ep, (λ item, (VStr ep.1, item)) <$> ep.2))
  /\ ((forall eps_data,
         dict_get (KStr SampleBatch.OBS) Samples.single_agent_data
         ≠ Some (VDict eps_data)) ->
      Some Samples.memorized = Some [])
  /\ (forall is_multi_agent st column copied st',
        process_column Samples.stack Samples.default_policy RLModule
          is_multi_agent st (column, copied) = Ok st' ->
        column ≠ KStr SampleBatch.OBS ->
        st'.2 = st.2).
Proof.
  apply (call_memorizes_obs_structure Samples.stack Samples.default_policy
           RLModule Samples.single_agent_data [SingleAgentEpisode] (Some [])
           Samples.single_agent_batched (Some Samples.memorized)).
  - compute_done.
  - reflexivity.
  - discriminate.
  - reflexivity.
Defined.

Lemma output_specs_train_keys_witness :
  exists keys,
    output_specs_train
      (after_setup Samples.rainbow_config "torch" true true true (AValue VNone))
    = Ok (keys,
          after_setup Samples.rainbow_config "torch" true true true (AValue VNone))
    /\ (ATOMS ∈ keys
        <-> gt_one (config_get (model_config_dict Samples.rainbow_config)
                      "num_atoms") = Ok true)
    /\ (QF_LOGITS ∈ keys
        <-> gt_one (config_get (model_config_dict Samples.rainbow_config)
                      "num_atoms") = Ok true)
    /\ (QF_TARGET_NEXT_PROBS ∈ keys
        <-> gt_one (config_get (model_config_dict Samples.rainbow_config)
                      "num_atoms") = Ok true)
    /\ QF_PREDS ∈ keys
    /\ QF_TARGET_NEXT_PREDS ∈ keys
    /\ (forall n,
          config_get (model_config_dict Samples.rainbow_config) "num_atoms"
          = VInt n ->
          gt_one (config_get (model_config_dict Samples.rainbow_config)
                    "num_atoms") = Ok true
          <-> 1 < n).
Proof.
  apply (output_specs_train_keys Samples.keyword_only_scheduler
           Samples.rainbow_config "torch").
  vm_compute. reflexivity.
Defined.

Lemma setup_value_heads_iff_dueling_witness :
  let catalog := get_catalog Samples.rainbow_config in
  exists st,
    setup Samples.keyword_only_scheduler Samples.rainbow_config "torch"
      fresh_module = Ok (tt, st)
    /\ (is_Some (self st !! "vf") <-> flag_set Samples.rainbow_config "dueling")
    /\ (is_Some (self st !! "vf_target")
        <-> flag_set Samples.rainbow_config "dueling")
    /\ (flag_set Samples.rainbow_config "dueling" ->
        network_at st "vf" = Some (vf_head_built catalog "torch")
        /\ network_at st "vf_target"
           = Some (frozen (vf_head_built catalog "torch")))
    /\ (¬ flag_set Samples.rainbow_config "dueling" ->
        self st !! "vf" = None /\ self st !! "vf_target" = None)
    /\ network_at st "af" = Some (af_head_built catalog "torch")
    /\ network_at st "af_target"
       = Some (frozen (af_head_built catalog "torch")).
Proof.
  apply (setup_value_heads_iff_dueling Samples.keyword_only_scheduler
           Samples.rainbow_config "torch" true true true VNone (AValue VNone)).
  - reflexivity.
  - reflexivity.
  - reflexivity.
  - discriminate.
Defined.

Lemma setup_builds_target_copies_witness :
  let st := after_setup Samples.rainbow_config "torch" true true true (AValue VNone) in
  let catalog := get_catalog Samples.rainbow_config in
  (network_at st "encoder" = Some (encoder_built catalog "torch")
   /\ network_at st "target_encoder"
      = Some (frozen (encoder_built catalog "torch"))
   /\ self st !! "target_encoder" ≠ self st !! "encoder")
  /\ (network_at st "af" = Some (af_head_built catalog "torch")
      /\ network_at st "af_target"
         = Some (frozen (af_head_built catalog "torch"))
      /\ self st !! "af_target" ≠ self st !! "af")
  /\ (is_Some (self st !! "vf_target") <-> is_Some (self st !! "vf"))
  /\ (is_Some (self st !! "vf") <-> flag_set Samples.rainbow_config "dueling")
  /\ (forall m, network_at st "vf" = Some m ->
                network_at st "vf_target" = Some (frozen m)
                /\ self st !! "vf_target" ≠ self st !! "vf").
Proof.
  apply (setup_builds_target_copies Samples.keyword_only_scheduler
           Samples.rainbow_config "torch").
  vm_compute. reflexivity.
Defined.


(** C7 without the exception for the key of the default policy fails: a
    [MultiAgentRLModule] without a default policy, single-agent episodes, a
    list under "default_policy" and a per-episode column after it. The list
    is batched, and the per-episode column is then filed into the result. *)
Lemma default_policy_list_column_is_extended :
  dict_wf Samples.default_policy_list_data
  /\ dict_get (KStr "default_policy") Samples.default_policy_list_data
     = Some (VList [VDict [(KStr "a", VInt 1)]])
  /\ module_column (MultiAgentRLModule ["m1"]) (KStr "default_policy") = false
  /\ call Samples.stack Samples.default_policy (MultiAgentRLModule ["m1"])
       (VDict Samples.default_policy_list_data) [SingleAgentEpisode] (Some [])
     = Ok (VDict Samples.default_policy_list_result,
           Some [(KStr "memorized_map_structure", VList [VStr "e1"])])
  /\ ¬ exists b,
         Samples.stack [VDict [(KStr "a", VInt 1)]] = Ok b
         /\ dict_get (KStr "default_policy") Samples.default_policy_list_result
            = Some b.
Proof.
  split; [compute_done|]. split; [done|]. split; [done|].
  split; [done|]. by intros (b & [= <-] & ?).
Qed.

Lemma target_networks_stay_frozen_witness :
  let st := after_setup Samples.rainbow_config "torch" true true true (AValue VNone) in
  let catalog := get_catalog Samples.rainbow_config in
  (exists rs,
     invoke_all "actions" "new_obs" "t"
       [Output_specs_train; Get_exploration_action_dist_cls; Get_initial_state]
       st = Ok (rs, st))
  /\ network_at st "target_encoder"
     = Some (frozen (encoder_built catalog "torch"))
  /\ network_at st "af_target" = Some (frozen (af_head_built catalog "torch"))
  /\ (flag_set Samples.rainbow_config "dueling" ->
      network_at st "vf_target" = Some (frozen (vf_head_built catalog "torch")))
  /\ (forall name m,
        name ∈ target_names -> network_at st name = Some m ->
        trainable m = false).
Proof.
  apply (target_networks_stay_frozen Samples.keyword_only_scheduler
           Samples.rainbow_config "torch"
           "actions" "new_obs" "t").
  vm_compute. reflexivity.
Defined.

(** The simple case on a list of two info dictionaries. *)
Example infos_list_is_stacked :
  call Samples.stack Samples.default_policy RLModule
    (VDict [(KStr "infos", VList [VDict []; VDict []])])
    [SingleAgentEpisode] None
  = Ok (VDict [(KStr "infos", VArray [VDict []; VDict []])], None).
Proof. reflexivity. Qed.

(** Module data with multi-agent episodes: the lists of a module are
    stacked, its "infos" list is left alone. *)
Example module_infos_stay_a_list :
  call Samples.stack Samples.default_policy (MultiAgentRLModule ["m1"])
    (VDict Samples.multi_agent_data) [MultiAgentEpisode] None
  = Ok (VDict [(KStr "m1",
                VDict [(KStr "obs", VArray [VInt 1; VInt 2]);
                       (KStr "infos", VList [VDict []; VDict []])])],
        None).
Proof. reflexivity. Qed.

(** Single-agent episodes with a [MultiAgentRLModule]: the per-episode
    columns are filed under the default policy, the list column stays. *)
Example single_agent_columns_are_filed :
  call Samples.stack Samples.default_policy
    (MultiAgentRLModule ["default_policy"])
    (VDict Samples.single_agent_data) [SingleAgentEpisode] (Some [])
  = Ok (VDict
          [(KStr "loss_mask", VArray [VBool true; VBool true; VBool false]);
           (KStr "default_policy",
            VDict [(KStr "obs", VArray [VInt 1; VInt 2; VInt 3]);
                   (KStr "infos", VList [VDict []; VDict []; VDict []])])],
        Some Samples.memorized).
Proof. reflexivity. Qed.

(** The sample data is data the single-agent call returns on. *)
Example single_agent_data_is_reshapable :
  Forall (reshapable Samples.stack) Samples.single_agent_data.
Proof.
  repeat apply Forall_cons_2; [| | |apply Forall_nil_2].
  - right. exists Samples.obs_episodes. split; [done|].
    split; [compute_done|]. right. by eexists.
  - right. exists Samples.infos_episodes. split; [done|].
    split; [compute_done|]. by left.
  - left. by eexists _, _.
Qed.

(* ===================================================================== *)
(** * The connector: keys, errors and the module case *)
(* ===================================================================== *)

Section BatchIndividualItemsBehaviour.

Variable batch : list value -> result value.
Variable DEFAULT_POLICY_ID : string.

(** A loop that returns has returned from the iteration on each element. *)
Lemma for_each_reaches {A S : Type} (body : S -> A -> result S) xs x st st' :
  for_each body xs st = Ok st' -> x ∈ xs ->
  exists s s', body s x = Ok s'.
Proof.
  intros Hrun (l1 & l2 & ->)%list_elem_of_split.
  apply for_each_split in Hrun as (s & s' & _ & Hx & _). by exists s, s'.
Qed.

(** Unless the call files columns under [DEFAULT_POLICY_ID], an iteration
    that returns rebinds a key the data has: the keys stay as they are. *)
Lemma columns_keep_keys rl_module is_multi_agent todo st st' :
  (is_MultiAgentRLModule rl_module = true -> is_multi_agent = true) ->
  todo.*1 ⊆ dict_keys st.1 ->
  for_each (process_column batch DEFAULT_POLICY_ID rl_module is_multi_agent)
    todo st = Ok st' ->
  dict_keys st'.1 = dict_keys st.1.
Proof.
  intros Hno_move Hsub.
  apply (for_each_invariant _ (λ s, dict_keys s.1 = dict_keys st.1)); [|done].
  intros [d sd] [c v] [d2 sd2] Hin Hkeys Hstep. cbn [fst snd] in *.
  rewrite <- Hkeys.
  apply process_column_inv in Hstep
    as [_ [new_data [[-> _]|(Hm & Hs & _)]]].
  - apply dict_keys_set_in. rewrite Hkeys. apply Hsub.
    by apply (list_elem_of_fmap_2 fst _ (c, v)).
  - rewrite (Hno_move Hm) in Hs. done.
Qed.

(** X1. With a plain module, or with multi-agent episodes, the returned
    data has the columns of the data that came in, in the same order: the
    call adds no column and removes none. *)
Theorem call_keeps_column_keys rl_module d episodes shared_data d'
    shared_data' :
  files_under_default_policy rl_module episodes = false ->
  call batch DEFAULT_POLICY_ID rl_module (VDict d) episodes shared_data
  = Ok (VDict d', shared_data') ->
  dict_keys d' = dict_keys d.
Proof.
  intros Hfiles (first & d2 & Hfirst & [= <-] & Hrun)%call_inv.
  apply columns_keep_keys in Hrun; [done| |done].
  unfold files_under_default_policy in Hfiles. rewrite Hfirst in Hfiles.
  intros Hm. rewrite Hm in Hfiles. by destruct first.
Qed.

(** The loop over the columns of a module: lists other than "infos" are
    replaced by their batch, every other entry and the keys stay. *)
Lemma batch_module_columns_spec todo cur md' :
  NoDup todo.*1 ->
  todo.*1 ⊆ dict_keys cur ->
  for_each (batch_module_column batch) todo cur = Ok md' ->
  dict_keys md' = dict_keys cur
  /\ (forall col, col ∉ todo.*1 -> dict_get col md' = dict_get col cur)
  /\ (forall col v, (col, v) ∈ todo ->
        match v with
        | VList items =>
            if decide (col = KStr SampleBatch.INFOS)
            then dict_get col md' = dict_get col cur
            else exists b, batch items = Ok b /\ dict_get col md' = Some b
        | _ => dict_get col md' = dict_get col cur
        end).
Proof.
  revert cur. induction todo as [|[c v] todo IH]; intros cur Hnd Hsub Hrun.
  { injection Hrun as <-. split; [done|]. split; [done|].
    by intros col v' ?%elem_of_nil. }
  rewrite fmap_cons in Hnd, Hsub. apply NoDup_cons in Hnd as [Hc Hnd].
  cbn [for_each] in Hrun.
  destruct (batch_module_column batch cur (c, v)) as [cur1|] eqn:Hstep;
    [|done].
  assert (dict_keys cur1 = dict_keys cur
          /\ (forall col, col ≠ c -> dict_get col cur1 = dict_get col cur)
          /\ match v with
             | VList items =>
                 if decide (c = KStr SampleBatch.INFOS)
                 then cur1 = cur
                 else exists b, batch items = Ok b
                                /\ dict_get c cur1 = Some b
             | _ => cur1 = cur
             end) as (Hkeys1 & Hframe1 & Hhead).
  { unfold batch_module_column in Hstep.
    destruct v; try (injection Hstep as <-; done).
    destruct (decide (c = KStr SampleBatch.INFOS));
      [injection Hstep as <-; done|].
    destruct (batch items) as [b|] eqn:Hb; [|done]. injection Hstep as <-.
    split; [|split].
    - apply dict_keys_set_in. apply Hsub. by left.
    - intros col Hne. by apply dict_get_set_ne.
    - exists b. split; [done | apply dict_get_set_eq]. }
  destruct (IH cur1 Hnd) as (Hkeys & Hframe & Hall); [|done|].
  { rewrite Hkeys1. intros x Hx. apply Hsub. by right. }
  split; [congruence|]. split.
  - intros col [Hne Hcol]%not_elem_of_cons.
    rewrite (Hframe col Hcol). by apply Hframe1.
  - intros col v' [[= -> ->]|Hin]%elem_of_cons.
    + rewrite (Hframe c Hc).
      destruct v; try (by rewrite Hhead).
      destruct (decide (c = KStr SampleBatch.INFOS)); [by rewrite Hhead|].
      done.
    + assert (col ≠ c) as Hne.
      { intros ->. apply Hc. by apply (list_elem_of_fmap_2 fst _ (c, v')). }
      specialize (Hall col v' Hin). rewrite (Hframe1 col Hne) in Hall. done.
Qed.

(** X2. With multi-agent episodes, the data of a module comes back with
    the same keys, each list other than "infos" replaced by its batch and
    every other entry, the "infos" list among them, as it was. *)
Theorem call_batches_module_lists rl_module d episodes shared_data column
    module_data d' shared_data' :
  dict_wf d ->
  head episodes = Some MultiAgentEpisode ->
  dict_get column d = Some (VDict module_data) ->
  dict_wf module_data ->
  module_column rl_module column = true ->
  call batch DEFAULT_POLICY_ID rl_module (VDict d) episodes shared_data
  = Ok (VDict d', shared_data') ->
  exists module_data',
    dict_get column d' = Some (VDict module_data')
    /\ dict_keys module_data' = dict_keys module_data
    /\ (forall col v,
          dict_get col module_data = Some v ->
          match v with
          | VList items =>
              if decide (col = KStr SampleBatch.INFOS)
              then dict_get col module_data' = Some v
              else exists b, batch items = Ok b
                             /\ dict_get col module_data' = Some b
          | _ => dict_get col module_data' = Some v
          end).
Proof.
  intros Hwf Hfirst Hget Hwfm Hmc Hcall.
  assert (files_under_default_policy rl_module episodes = true ->
          column ≠ KStr DEFAULT_POLICY_ID) as Hdp.
  { unfold files_under_default_policy. rewrite Hfirst.
    by rewrite andb_false_r. }
  destruct (call_reaches _ _ _ _ _ _ _ _ _ _ Hwf Hget Hdp Hcall)
    as (first & pre & post & [d1 sd1] & [d2 sd2] & Hfirst' & Hd & Hpre & Hpost
        & Hrun1 & Hwf1 & Hget1 & Hstep & Hrun2).
  rewrite Hfirst in Hfirst'. injection Hfirst' as <-.
  cbn [fst snd is_MultiAgentEpisode] in *.
  rewrite (process_column_module _ _ _ _ _ _ _ _ Hget1 Hmc) in Hstep.
  destruct (batch_module_data batch (VDict module_data)) as [md'|] eqn:Hmd;
    simpl in Hstep; [|done].
  injection Hstep as <- <-. exists md'.
  pose proof (columns_frame _ _ _ _ _ _ _ column Hrun2 Hpost) as Hframe.
  cbn [fst] in Hframe. rewrite Hframe by done. rewrite dict_get_set_eq.
  split; [done|].
  destruct (batch_module_columns_spec module_data module_data md' Hwfm
              ltac:(done) Hmd) as (Hkeys & _ & Hall).
  split; [done|]. intros col v Hv.
  specialize (Hall col v (dict_get_elem_of _ _ _ Hv)). rewrite Hv in Hall.
  done.
Qed.

(** X4. With single-agent episodes, a column that is a key of the
    [MultiAgentRLModule] fails the assertion: the call does not return,
    and it raises [AssertionError] whenever the columns before that one
    went through. *)
Theorem call_asserts_multi_agent rl_module pre column v post episodes
    shared_data :
  head episodes = Some SingleAgentEpisode ->
  module_column rl_module column = true ->
  (exists e,
     call batch DEFAULT_POLICY_ID rl_module (VDict (pre ++ (column, v) :: post))
       episodes shared_data = Raise e)
  /\ (forall st,
        for_each (process_column batch DEFAULT_POLICY_ID rl_module false) pre
          (pre ++ (column, v) :: post, shared_data) = Ok st ->
        call batch DEFAULT_POLICY_ID rl_module
          (VDict (pre ++ (column, v) :: post)) episodes shared_data
        = Raise AssertionError).
Proof.
  intros Hfirst Hmc.
  destruct episodes as [|first rest]; [done|]. injection Hfirst as ->.
  set (d := pre ++ (column, v) :: post).
  assert (forall st,
            for_each (process_column batch DEFAULT_POLICY_ID rl_module false)
              pre (d, shared_data) = Ok st ->
            call batch DEFAULT_POLICY_ID rl_module (VDict d)
              (SingleAgentEpisode :: rest) shared_data
            = Raise AssertionError) as Hreached.
  { intros st Hrun1. rewrite call_eq.
    change (is_MultiAgentEpisode SingleAgentEpisode) with false.
    unfold d at 1. rewrite for_each_app, Hrun1.
    cbn [mbind result_bind for_each].
    by rewrite (process_column_assert _ _ _ _ _ _ Hmc). }
  split; [|done].
  destruct (for_each (process_column batch DEFAULT_POLICY_ID rl_module false)
              pre (d, shared_data)) as [st|e] eqn:Hrun1.
  - exists AssertionError. by apply (Hreached st).
  - exists e. rewrite call_eq.
    change (is_MultiAgentEpisode SingleAgentEpisode) with false.
    unfold d at 1. by rewrite for_each_app, Hrun1.
Qed.

(** The single-agent branch on the "obs" column writes into [shared_data]:
    on [None] it raises. *)
Lemma batch_episodes_obs_needs_shared_data is_marl_module v data st :
  batch_episodes batch DEFAULT_POLICY_ID is_marl_module
    (KStr SampleBatch.OBS) v (data, None) ≠ Ok st.
Proof.
  unfold batch_episodes. destruct v; try done.
  destruct (for_each _ _ _) as [[mms ltb]|]; simpl; [|done].
  destruct (batch ltb); simpl; [|done].
  destruct is_marl_module; simpl; [|done].
  by destruct (move_to_default_policy _ _ _).
Qed.

(** The loop over the episode keys stops at a key that does not unpack. *)
Lemma batch_episodes_bad_key is_marl_module column eps_data k e st st' :
  k ∈ dict_keys eps_data -> unpack1 k = Raise e ->
  batch_episodes batch DEFAULT_POLICY_ID is_marl_module column
    (VDict eps_data) st ≠ Ok st'.
Proof.
  intros Hk Hunpack. unfold batch_episodes. destruct st as [data sd].
  destruct (for_each _ _ _) as [acc|] eqn:Hrun; simpl; [|done].
  destruct (for_each_reaches _ _ _ _ _ Hrun Hk) as (s & s' & Hstep).
  unfold collect_episode in Hstep. by rewrite Hunpack in Hstep.
Qed.

(** Where a call with single-agent episodes stands when it reaches a column
    that holds a dictionary: the column is no key of the module, and the
    single-agent branch returns on the dictionary. *)
Lemma call_reaches_single_agent rl_module d episodes shared_data d'
    shared_data' column eps_data :
  dict_wf d ->
  head episodes = Some SingleAgentEpisode ->
  dict_get column d = Some (VDict eps_data) ->
  call batch DEFAULT_POLICY_ID rl_module (VDict d) episodes shared_data
  = Ok (VDict d', shared_data') ->
  exists pre post d1 sd1 st2,
    d = pre ++ (column, VDict eps_data) :: post
    /\ (column ∉ pre.*1) /\ (column ∉ post.*1)
    /\ for_each (process_column batch DEFAULT_POLICY_ID rl_module false) pre
         (d, shared_data) = Ok (d1, sd1)
    /\ dict_wf d1
    /\ batch_episodes batch DEFAULT_POLICY_ID
         (is_MultiAgentRLModule rl_module) column (VDict eps_data) (d1, sd1)
       = Ok st2
    /\ for_each (process_column batch DEFAULT_POLICY_ID rl_module false) post
         st2 = Ok (d', shared_data')
    /\ (is_MultiAgentRLModule rl_module = true ->
        column ≠ KStr DEFAULT_POLICY_ID).
Proof.
  intros Hwf Hfirst Hget Hcall.
  assert (is_MultiAgentRLModule rl_module = true ->
          column ≠ KStr DEFAULT_POLICY_ID) as Hne.
  { intros Hm ->. by eapply call_default_policy_column_raises. }
  assert (files_under_default_policy rl_module episodes = true ->
          column ≠ KStr DEFAULT_POLICY_ID) as Hdp.
  { unfold files_under_default_policy.
    destruct (is_MultiAgentRLModule rl_module); [auto | done]. }
  destruct (call_reaches _ _ _ _ _ _ _ _ _ _ Hwf Hget Hdp Hcall)
    as (first & pre & post & [d1 sd1] & st2 & Hfirst' & Hd & Hpre & Hpost
        & Hrun1 & Hwf1 & Hget1 & Hstep & Hrun2).
  rewrite Hfirst in Hfirst'. injection Hfirst' as <-.
  cbn [fst snd is_MultiAgentEpisode] in *.
  destruct (module_column rl_module column) eqn:Hmc.
  { by rewrite process_column_assert in Hstep. }
  rewrite (process_column_single_agent _ _ _ _ _ _ _ _ Hget1) in Hstep by done.
  by exists pre, post, d1, sd1, st2.
Qed.

(** X5. With single-agent episodes and no [shared_data] (the default,
    [None]), a dictionary under "obs" makes the call raise: there is
    nothing to record the structure in. *)
Theorem call_needs_shared_data rl_module d episodes eps_data :
  dict_wf d ->
  head episodes = Some SingleAgentEpisode ->
  dict_get (KStr SampleBatch.OBS) d = Some (VDict eps_data) ->
  exists e,
    call batch DEFAULT_POLICY_ID rl_module (VDict d) episodes None = Raise e.
Proof.
  intros Hwf Hfirst Hget.
  destruct (call batch DEFAULT_POLICY_ID rl_module (VDict d) episodes None)
    as [[r sd']|e] eqn:Hcall; [exfalso | by exists e].
  destruct (call_inv _ _ _ _ _ _ _ _ Hcall) as (_ & d' & _ & -> & _).
  destruct (call_reaches_single_agent _ _ _ _ _ _ _ _ Hwf Hfirst Hget Hcall)
    as (pre & post & d1 & sd1 & st2 & _ & Hpre & _ & Hrun1 & _ & Hstep & _).
  apply columns_shared_data in Hrun1; [|done]. cbn [snd] in Hrun1.
  subst sd1. by apply batch_episodes_obs_needs_shared_data in Hstep.
Qed.

(** X6. With single-agent episodes, a dictionary under a column is read
    as a mapping from [(eps_id,)] keys: one key that is a tuple of another
    length (the keys of multi-agent data have three parts) makes the call
    raise. *)
Theorem call_rejects_malformed_episode_key rl_module d episodes shared_data
    column eps_data ids :
  dict_wf d ->
  head episodes = Some SingleAgentEpisode ->
  dict_get column d = Some (VDict eps_data) ->
  KTuple ids ∈ dict_keys eps_data ->
  length ids ≠ 1%nat ->
  exists e,
    call batch DEFAULT_POLICY_ID rl_module (VDict d) episodes shared_data
    = Raise e.
Proof.
  intros Hwf Hfirst Hget Hkey Hlen.
  destruct (call batch DEFAULT_POLICY_ID rl_module (VDict d) episodes
              shared_data) as [[r sd']|e] eqn:Hcall; [exfalso | by exists e].
  destruct (call_inv _ _ _ _ _ _ _ _ Hcall) as (_ & d' & _ & -> & _).
  destruct (call_reaches_single_agent _ _ _ _ _ _ _ _ Hwf Hfirst Hget Hcall)
    as (pre & post & d1 & sd1 & st2 & _ & _ & _ & _ & _ & Hstep & _).
  apply (batch_episodes_bad_key _ _ _ _ ValueError _ _ Hkey) in Hstep; [done|].
  by destruct ids as [|? [|? ?]].
Qed.

(** The move takes [column] out of the data. *)
Lemma move_to_default_policy_pops column data data' :
  dict_wf data ->
  move_to_default_policy DEFAULT_POLICY_ID column data = Ok data' ->
  dict_get column data' = None.
Proof.
  intros Hwf Hmove.
  destruct (move_to_default_policy_inv _ _ _ _ Hwf Hmove) as (Hne & _).
  revert Hmove. unfold move_to_default_policy, getitem.
  set (data1 := if dict_in _ data then data else _).
  assert (dict_wf data1) as Hwf1.
  { subst data1. destruct (dict_in _ data); [done | by apply dict_wf_set]. }
  destruct (dict_get column data1); simpl; [|done].
  destruct (dict_get _ (dict_pop column data1)) as [[]|]; simpl; try done.
  intros [= <-]. rewrite dict_get_set_ne by done.
  by apply dict_get_pop_eq.
Qed.

(** X7. With a [MultiAgentRLModule] and single-agent episodes, a column
    that held a dictionary is moved, not copied: the returned data has it
    under [DEFAULT_POLICY_ID] only, no longer as a column of its own. *)
Theorem call_moves_filed_columns rl_module d episodes shared_data column
    eps_data d' shared_data' :
  dict_wf d ->
  is_MultiAgentRLModule rl_module = true ->
  head episodes = Some SingleAgentEpisode ->
  dict_get column d = Some (VDict eps_data) ->
  call batch DEFAULT_POLICY_ID rl_module (VDict d) episodes shared_data
  = Ok (VDict d', shared_data') ->
  dict_get column d' = None
  /\ exists policy_data,
       dict_get (KStr DEFAULT_POLICY_ID) d' = Some (VDict policy_data)
       /\ column ∈ dict_keys policy_data.
Proof.
  intros Hwf Hm Hfirst Hget Hcall.
  destruct (call_reaches_single_agent _ _ _ _ _ _ _ _ Hwf Hfirst Hget Hcall)
    as (pre & post & d1 & sd1 & [d2 sd2] & _ & _ & Hpost & _ & Hwf1 & Hstep
        & Hrun2 & Hne).
  specialize (Hne Hm).
  apply batch_episodes_inv in Hstep as [_ [new_data Hmove]].
  rewrite Hm in Hmove.
  assert (dict_wf (dict_set column new_data d1)) as Hwf2
    by by apply dict_wf_set.
  split.
  - pose proof (columns_frame _ _ _ _ _ _ _ column Hrun2 Hpost) as Hframe.
    cbn [fst] in Hframe. rewrite Hframe by done.
    by eapply move_to_default_policy_pops.
  - destruct (move_to_default_policy_inv _ _ _ _ Hwf2 Hmove)
      as (_ & Hwf3 & popped & pd & _ & _ & Hafter).
    destruct (columns_keep_filed batch DEFAULT_POLICY_ID rl_module post
                (d2, sd2) (d', shared_data')
                (λ pd, column ∈ dict_keys pd) Hm) as (pd' & Hpd' & Hin);
      try done.
    + intros c' x pd0 _ Hin. destruct (decide (c' ∈ dict_keys pd0)).
      * by rewrite dict_keys_set_in.
      * rewrite dict_keys_set_new by done. apply elem_of_app. by left.
    + exists (dict_set column popped pd). split; [done|].
      eapply dict_get_Some_keys. apply dict_get_set_eq.
    + by exists pd'.
Qed.

(** X8. With multi-agent episodes the call does not touch [shared_data]. *)
Theorem call_multi_agent_keeps_shared_data rl_module d episodes shared_data r
    shared_data' :
  head episodes = Some MultiAgentEpisode ->
  call batch DEFAULT_POLICY_ID rl_module (VDict d) episodes shared_data
  = Ok (r, shared_data') ->
  shared_data' = shared_data.
Proof.
  intros Hfirst (first & d' & Hfirst' & _ & Hrun)%call_inv.
  rewrite Hfirst in Hfirst'. injection Hfirst' as <-.
  cbn [is_MultiAgentEpisode] in Hrun. revert Hrun.
  apply (for_each_invariant _ (λ s, s.2 = shared_data)); [|done].
  intros [d1 sd1] [c v] [d2 sd2] _ Hsd Hstep. cbn [snd] in *. subst sd1.
  by apply process_column_shared_data in Hstep as [->|(_ & ? & _)].
Qed.

End BatchIndividualItemsBehaviour.

(* ===================================================================== *)
(** * The RL module: failures of [setup], the support, the networks *)
(* ===================================================================== *)

Section DQNRainbowRLModuleBehaviour.

Variable Scheduler : list value -> list (string * value) -> result attr.
Variable config : RLModuleConfig.
Variable framework : string.

Local Abbreviation get := (config_get (model_config_dict config)).

(** X10. [setup] returns only if [num_atoms > 1], the noisy flag and the
    dueling flag have a truth value and, the noisy flag being off, the
    configuration has an "epsilon" entry on which the call of [Scheduler]
    returned. With a constructor that takes keyword arguments only, [setup]
    therefore returns only with the noisy flag on. *)
Theorem setup_returns_only_if st :
  setup Scheduler config framework fresh_module = Ok (tt, st) ->
  (exists distributional, gt_one (get "num_atoms") = Ok distributional)
  /\ (exists is_dueling, truthy (get "dueling") = Ok is_dueling)
  /\ (exists uses_noisy,
        truthy (get "noisy") = Ok uses_noisy
        /\ (uses_noisy = false ->
            exists epsilon a,
              model_config_dict config !! "epsilon" = Some epsilon
              /\ Scheduler [epsilon] (scheduler_kwargs framework) = Ok a))
  /\ (keyword_only Scheduler -> flag_set config "noisy").
Proof.
  intros (dist & noisy & duel & eps & sched & Hd & Hn & Hu & He & _)%setup_inv.
  split; [by exists dist|]. split; [by exists duel|]. split.
  - exists noisy. split; [done|]. intros Hoff. exists eps, sched. by apply He.
  - intros Hkw. unfold flag_set. rewrite Hn. destruct noisy; [done|].
    destruct (He eq_refl) as [_ Hs]. by rewrite Hkw in Hs.
Qed.

(** X11. Without a "num_atoms" entry in the model configuration [setup]
    raises [TypeError] ([None > 1]), whatever else is configured and
    whatever the module held before. *)
Theorem setup_without_num_atoms_raises st :
  model_config_dict config !! "num_atoms" = None ->
  setup Scheduler config framework st = Raise TypeError.
Proof.
  intros Hnone.
  assert (get "num_atoms" = VNone) as Hv
    by (unfold config_get; by rewrite Hnone).
  unfold setup. unfold_module. cbn [self objects].
  by rewrite lookup_insert_eq, Hv.
Qed.

(** X12. With the noisy flag off and no "epsilon" entry [setup] raises
    [KeyError]: the flags are read with [get], "epsilon" is not. *)
Theorem setup_without_epsilon_raises st distributional :
  gt_one (get "num_atoms") = Ok distributional ->
  truthy (get "noisy") = Ok false ->
  model_config_dict config !! "epsilon" = None ->
  setup Scheduler config framework st = Raise KeyError.
Proof.
  intros Hd Hn He. unfold setup. unfold_module. cbn [self objects].
  rewrite lookup_insert_eq, Hd.
  destruct distributional; cbn [self objects];
    repeat first [ rewrite lookup_insert_eq
                 | rewrite lookup_insert_ne by done ];
    by rewrite Hn, He.
Qed.

(** The support of the distribution after [setup]. *)
Lemma after_setup_support distributional uses_noisy is_dueling epsilon_schedule :
  let st := after_setup config framework distributional uses_noisy is_dueling
              epsilon_schedule in
  self st !! "v_min"
  = (if distributional then Some (AValue (get "v_min")) else None)
  /\ self st !! "v_max"
     = (if distributional then Some (AValue (get "v_max")) else None).
Proof.
  unfold after_setup. cbn [self].
  destruct distributional, uses_noisy, is_dueling;
    split;
    repeat first [ rewrite lookup_insert_eq
                 | rewrite lookup_insert_ne by done
                 | rewrite lookup_empty ];
    reflexivity.
Qed.

(** X13. [setup] configures the support exactly when [num_atoms > 1]:
    [v_min] and [v_max] are then what the configuration has under "v_min"
    and "v_max" ([None] for a missing entry), and are not set otherwise. *)
Theorem setup_support_iff_distributional st :
  setup Scheduler config framework fresh_module = Ok (tt, st) ->
  (is_Some (self st !! "v_min") <-> gt_one (get "num_atoms") = Ok true)
  /\ (is_Some (self st !! "v_max") <-> gt_one (get "num_atoms") = Ok true)
  /\ (gt_one (get "num_atoms") = Ok true ->
      self st !! "v_min" = Some (AValue (get "v_min"))
      /\ self st !! "v_max" = Some (AValue (get "v_max"))).
Proof.
  intros (dist & noisy & duel & eps & sched & Hd & _ & _ & _ & ->)%setup_inv.
  destruct (after_setup_support dist noisy duel sched) as [-> ->].
  rewrite Hd.
  destruct dist; repeat split; try done;
    try (intros _; by eexists); by intros [? ?].
Qed.

(** X14. [setup] builds four networks, six with the dueling flag, one for
    each of the attributes [encoder], [target_encoder], [af], [af_target]
    and, with the flag, [vf], [vf_target]: no two of them refer to the
    same network, so that freezing a target leaves the main network
    alone. *)
Theorem setup_networks_are_separate st :
  setup Scheduler config framework fresh_module = Ok (tt, st) ->
  (flag_set config "dueling" -> length (objects st) = 6%nat)
  /\ (¬ flag_set config "dueling" -> length (objects st) = 4%nat)
  /\ (forall n1 n2 loc,
        n1 ∈ network_names -> n2 ∈ network_names ->
        self st !! n1 = Some (ARef loc) -> self st !! n2 = Some (ARef loc) ->
        n1 = n2)
  /\ (forall name m,
        name ∈ ["encoder"; "af"; "vf"] -> network_at st name = Some m ->
        m ∈ [encoder_built (get_catalog config) framework;
             af_head_built (get_catalog config) framework;
             vf_head_built (get_catalog config) framework]).
Proof.
  intros (dist & noisy & duel & eps & sched & _ & _ & Hu & _ & ->)%setup_inv.
  destruct (after_setup_attrs config framework dist noisy duel sched)
    as (_ & _ & _ & He & Hte & Haf & Hvf & Haft & Hvft).
  destruct (after_setup_networks config framework dist noisy duel sched)
    as (Hne & _ & Hnaf & _ & Hnvf & _).
  rewrite (flag_set_iff config _ _ Hu).
  split; [|split; [|split]].
  - intros ->. done.
  - destruct duel; [by intros [] | done].
  - unfold network_names. intros n1 n2 loc Hn1 Hn2.
    rewrite !elem_of_cons, elem_of_nil in Hn1, Hn2.
    destruct Hn1 as [->|[->|[->|[->|[->|[->|[]]]]]]];
      destruct Hn2 as [->|[->|[->|[->|[->|[->|[]]]]]]];
      rewrite ?He, ?Hte, ?Haf, ?Hvf, ?Haft, ?Hvft;
      destruct duel; congruence.
  - intros name m Hname. rewrite !elem_of_cons, elem_of_nil in Hname.
    destruct Hname as [->|[->|[->|[]]]].
    + rewrite Hne. intros [= <-]. by left.
    + rewrite Hnaf. intros [= <-]. right. by left.
    + rewrite Hnvf. destruct duel; [|done]. intros [= <-]. do 2 right. by left.
Qed.

(** X15. The training output spec names each key once, and never
    "qf_probs": the probabilities of the main network are not among the
    outputs the module promises. *)
Theorem output_specs_train_never_probs st :
  setup Scheduler config framework fresh_module = Ok (tt, st) ->
  exists keys,
    output_specs_train st = Ok (keys, st)
    /\ NoDup keys
    /\ (QF_PROBS ∉ keys)
    /\ (length keys = 2%nat \/ length keys = 5%nat).
Proof.
  intros (dist & noisy & duel & eps & sched & Hd & _ & _ & _ & ->)%setup_inv.
  destruct (after_setup_attrs config framework dist noisy duel sched)
    as (Hatoms & _).
  exists ([QF_PREDS; QF_TARGET_NEXT_PREDS]
          ++ (if dist then [ATOMS; QF_LOGITS; QF_TARGET_NEXT_PROBS] else [])).
  split.
  { unfold output_specs_train. unfold_module. rewrite Hatoms. simpl.
    by rewrite Hd. }
  unfold QF_PREDS, QF_TARGET_NEXT_PREDS, ATOMS, QF_LOGITS,
    QF_TARGET_NEXT_PROBS, QF_PROBS.
  destruct dist; simpl; (split; [compute_done|]);
    (split; [compute_done|]); auto.
Qed.

(** X16. What [setup] stores as the action distribution class,
    [get_exploration_action_dist_cls] returns: the class the catalog gives
    for the framework. Before [setup] the getter raises. *)
Theorem exploration_dist_cls_is_the_catalogs st :
  setup Scheduler config framework fresh_module = Ok (tt, st) ->
  get_exploration_action_dist_cls st
  = Ok (AClass (action_dist_cls (get_catalog config) framework), st)
  /\ get_exploration_action_dist_cls fresh_module = Raise AttributeError.
Proof.
  intros (dist & noisy & duel & eps & sched & _ & _ & _ & _ & ->)%setup_inv.
  destruct (after_setup_attrs config framework dist noisy duel sched)
    as (_ & Hcls & _).
  unfold get_exploration_action_dist_cls, getattr. by rewrite Hcls.
Qed.

End DQNRainbowRLModuleBehaviour.

(* ===================================================================== *)
(** * The further properties on the sample inputs *)
(* ===================================================================== *)

Lemma call_keeps_column_keys_witness :
  dict_keys Samples.single_agent_batched = dict_keys Samples.single_agent_data.
Proof.
  apply (call_keeps_column_keys Samples.stack Samples.default_policy RLModule
           Samples.single_agent_data [SingleAgentEpisode] (Some [])
           Samples.single_agent_batched (Some Samples.memorized)).
  - reflexivity.
  - reflexivity.
Defined.

Lemma call_batches_module_lists_witness :
  exists module_data',
    dict_get (KStr "m1") Samples.multi_agent_batched
    = Some (VDict module_data')
    /\ dict_keys module_data' = [KStr "obs"; KStr "infos"]
    /\ (forall col v,
          dict_get col
            [(KStr "obs", VList [VInt 1; VInt 2]);
             (KStr "infos", VList [VDict []; VDict []])] = Some v ->
          match v with
          | VList items =>
              if decide (col = KStr SampleBatch.INFOS)
              then dict_get col module_data' = Some v
              else exists b, Samples.stack items = Ok b
                             /\ dict_get col module_data' = Some b
          | _ => dict_get col module_data' = Some v
          end).
Proof.
  apply (call_batches_module_lists Samples.stack Samples.default_policy
           (MultiAgentRLModule ["m1"]) Samples.multi_agent_data
           [MultiAgentEpisode] None (KStr "m1")
           [(KStr "obs", VList [VInt 1; VInt 2]);
            (KStr "infos", VList [VDict []; VDict []])]
           Samples.multi_agent_batched None).
  - compute_done.
  - reflexivity.
  - reflexivity.
  - compute_done.
  - reflexivity.
  - reflexivity.
Defined.

Lemma call_keeps_infos_list_witness :
  dict_get (KStr SampleBatch.INFOS) Samples.single_agent_batched
  = Some (VList (concat_items Samples.infos_episodes)).
Proof.
  apply (call_keeps_infos_list Samples.stack Samples.default_policy RLModule
           Samples.single_agent_data [SingleAgentEpisode] (Some [])
           Samples.infos_episodes Samples.single_agent_batched
           (Some Samples.memorized)).
  - compute_done.
  - reflexivity.
  - reflexivity.
  - compute_done.
  - reflexivity.
Defined.

Lemma call_asserts_multi_agent_witness :
  (exists e,
     call Samples.stack Samples.default_policy (MultiAgentRLModule ["m1"])
       (VDict Samples.multi_agent_data) [SingleAgentEpisode] None = Raise e)
  /\ (forall st,
        for_each
          (process_column Samples.stack Samples.default_policy
             (MultiAgentRLModule ["m1"]) false) []
          (Samples.multi_agent_data, None) = Ok st ->
        call Samples.stack Samples.default_policy (MultiAgentRLModule ["m1"])
          (VDict Samples.multi_agent_data) [SingleAgentEpisode] None
        = Raise AssertionError).
Proof.
  apply (call_asserts_multi_agent Samples.stack Samples.default_policy
           (MultiAgentRLModule ["m1"]) [] (KStr "m1")
           (VDict [(KStr "obs", VList [VInt 1; VInt 2]);
                   (KStr "infos", VList [VDict []; VDict []])]) []
           [SingleAgentEpisode] None).
  - reflexivity.
  - reflexivity.
Defined.

Lemma call_needs_shared_data_witness :
  exists e,
    call Samples.stack Samples.default_policy RLModule
      (VDict Samples.single_agent_data) [SingleAgentEpisode] None = Raise e.
Proof.
  apply (call_needs_shared_data Samples.stack Samples.default_policy RLModule
           Samples.single_agent_data [SingleAgentEpisode]
           (episodes_dict Samples.obs_episodes)).
  - compute_done.
  - reflexivity.
  - reflexivity.
Defined.

Lemma call_rejects_malformed_episode_key_witness :
  exists e,
    call Samples.stack Samples.default_policy RLModule
      (VDict Samples.unmapped_data) [SingleAgentEpisode] (Some []) = Raise e.
Proof.
  apply (call_rejects_malformed_episode_key Samples.stack
           Samples.default_policy RLModule Samples.unmapped_data
           [SingleAgentEpisode] (Some []) (KStr "obs")
           [(KTuple ["e1"; "agent0"; "m1"], VList [VInt 1])]
           ["e1"; "agent0"; "m1"]).
  - compute_done.
  - reflexivity.
  - reflexivity.
  - compute_done.
  - discriminate.
Defined.

Lemma call_moves_filed_columns_witness :
  dict_get (KStr "obs") Samples.single_agent_filed = None
  /\ exists policy_data,
       dict_get (KStr Samples.default_policy) Samples.single_agent_filed
       = Some (VDict policy_data)
       /\ KStr "obs" ∈ dict_keys policy_data.
Proof.
  apply (call_moves_filed_columns Samples.stack Samples.default_policy
           (MultiAgentRLModule ["default_policy"]) Samples.single_agent_data
           [SingleAgentEpisode] (Some []) (KStr "obs")
           (episodes_dict Samples.obs_episodes) Samples.single_agent_filed
           (Some Samples.memorized)).
  - compute_done.
  - reflexivity.
  - reflexivity.
  - reflexivity.
  - reflexivity.
Defined.

Lemma call_multi_agent_keeps_shared_data_witness :
  Some Samples.memorized = Some Samples.memorized.
Proof.
  apply (call_multi_agent_keeps_shared_data Samples.stack
           Samples.default_policy (MultiAgentRLModule ["m1"])
           Samples.multi_agent_data [MultiAgentEpisode]
           (Some Samples.memorized) (VDict Samples.multi_agent_batched)
           (Some Samples.memorized)).
  - reflexivity.
  - reflexivity.
Defined.

Lemma call_single_agent_returns_witness :
  exists d' sd',
    call Samples.stack Samples.default_policy RLModule
      (VDict Samples.single_agent_data) [SingleAgentEpisode] (Some [])
    = Ok (VDict d', Some sd').
Proof.
  apply (call_single_agent_returns Samples.stack Samples.default_policy
           Samples.single_agent_data [] []).
  - compute_done.
  - apply single_agent_data_is_reshapable.
Defined.

Lemma setup_without_num_atoms_raises_witness :
  setup Samples.keyword_only_scheduler Samples.empty_config "torch"
    fresh_module = Raise TypeError.
Proof.
  apply (setup_without_num_atoms_raises Samples.keyword_only_scheduler
           Samples.empty_config "torch"
           fresh_module).
  reflexivity.
Defined.

Lemma setup_without_epsilon_raises_witness :
  setup Samples.keyword_only_scheduler Samples.bare_config "torch"
    fresh_module = Raise KeyError.
Proof.
  apply (setup_without_epsilon_raises Samples.keyword_only_scheduler
           Samples.bare_config "torch"
           fresh_module false).
  - reflexivity.
  - reflexivity.
  - reflexivity.
Defined.

Lemma setup_support_iff_distributional_witness :
  let st := after_setup Samples.rainbow_config "torch" true true true (AValue VNone) in
  let get := config_get (model_config_dict Samples.rainbow_config) in
  (is_Some (self st !! "v_min") <-> gt_one (get "num_atoms") = Ok true)
  /\ (is_Some (self st !! "v_max") <-> gt_one (get "num_atoms") = Ok true)
  /\ (gt_one (get "num_atoms") = Ok true ->
      self st !! "v_min" = Some (AValue (get "v_min"))
      /\ self st !! "v_max" = Some (AValue (get "v_max"))).
Proof.
  apply (setup_support_iff_distributional Samples.keyword_only_scheduler
           Samples.rainbow_config "torch").
  vm_compute. reflexivity.
Defined.

Lemma setup_networks_are_separate_witness :
  let st := after_setup Samples.rainbow_config "torch" true true true (AValue VNone) in
  (flag_set Samples.rainbow_config "dueling" -> length (objects st) = 6%nat)
  /\ (¬ flag_set Samples.rainbow_config "dueling" ->
      length (objects st) = 4%nat)
  /\ (forall n1 n2 loc,
        n1 ∈ network_names -> n2 ∈ network_names ->
        self st !! n1 = Some (ARef loc) -> self st !! n2 = Some (ARef loc) ->
        n1 = n2)
  /\ (forall name m,
        name ∈ ["encoder"; "af"; "vf"] -> network_at st name = Some m ->
        m ∈ [encoder_built (get_catalog Samples.rainbow_config) "torch";
             af_head_built (get_catalog Samples.rainbow_config) "torch";
             vf_head_built (get_catalog Samples.rainbow_config) "torch"]).
Proof.
  apply (setup_networks_are_separate Samples.keyword_only_scheduler
           Samples.rainbow_config "torch").
  vm_compute. reflexivity.
Defined.

Lemma output_specs_train_never_probs_witness :
  let st := after_setup Samples.noisy_config "torch" false true false (AValue VNone) in
  exists keys,
    output_specs_train st = Ok (keys, st)
    /\ NoDup keys
    /\ (QF_PROBS ∉ keys)
    /\ (length keys = 2%nat \/ length keys = 5%nat).
Proof.
  apply (output_specs_train_never_probs Samples.keyword_only_scheduler
           Samples.noisy_config "torch").
  vm_compute. reflexivity.
Defined.

Lemma exploration_dist_cls_is_the_catalogs_witness :
  let st := after_setup Samples.rainbow_config "torch" true true true (AValue VNone) in
  get_exploration_action_dist_cls st = Ok (AClass "TorchCategorical", st)
  /\ get_exploration_action_dist_cls fresh_module = Raise AttributeError.
Proof.
  apply (exploration_dist_cls_is_the_catalogs Samples.keyword_only_scheduler
           Samples.rainbow_config "torch").
  vm_compute. reflexivity.
Defined.

Lemma setup_returns_only_if_witness :
  let get := config_get (model_config_dict Samples.rainbow_config) in
  (exists distributional, gt_one (get "num_atoms") = Ok distributional)
  /\ (exists is_dueling, truthy (get "dueling") = Ok is_dueling)
  /\ (exists uses_noisy,
        truthy (get "noisy") = Ok uses_noisy
        /\ (uses_noisy = false ->
            exists epsilon a,
              model_config_dict Samples.rainbow_config !! "epsilon"
              = Some epsilon
              /\ Samples.keyword_only_scheduler [epsilon]
                   (scheduler_kwargs "torch") = Ok a))
  /\ (keyword_only Samples.keyword_only_scheduler ->
      flag_set Samples.rainbow_config "noisy").
Proof.
  apply (setup_returns_only_if Samples.keyword_only_scheduler
           Samples.rainbow_config "torch"
           (after_setup Samples.rainbow_config "torch" true true true
              (AValue VNone))).
  vm_compute. reflexivity.
Defined.
